(** * The admin dashboard and the login page of the cause-list scraper

    A shallow embedding of [frontend/app/admin/page.tsx] and
    [frontend/app/login/page.tsx].  Each React component is an event-driven
    machine: its [useState] cells form a record, every handler is a function
    on that record and on the part of the browser it touches (local storage,
    timers, the requests handed to [fetch]), and an [async] handler is cut at
    its network [await] into the part that runs on the click and the part
    that runs when the promise settles. *)

From Stdlib Require Import String Ascii List ZArith Bool Lia Permutation.
From Stdlib Require Import DecimalString.
Import ListNotations.
Local Open Scope string_scope.
Set Warnings "-register-all".

(** ** JavaScript values

    What [await response.json()] can produce, with the three operations the
    pages apply to such values: property access, [||] and the string
    conversion of template literals and of [localStorage.setItem]. *)

Module Js.

Inductive value : Type :=
| Undefined
| Null
| Bool (b : bool)
| Num (z : Z)              (* the integer counters the endpoints report *)
| Str (s : string)
| Arr (items : list value)
| Obj (fields : list (string * value)).   (* own properties, each name once *)

(** A thrown [Error]: the pages look at [name] and [message] only. *)
Record error : Type := Error { name : string; message : string }.

Inductive outcome (A : Type) : Type :=
| Rejected (e : error)
| Resolved (a : A).
Arguments Rejected {A} e.
Arguments Resolved {A} a.

(** What [if (v)] and [v || ...] test. *)
Definition truthy (v : value) : bool :=
  match v with
  | Undefined | Null => false
  | Bool b => b
  | Num z => negb (z =? 0)%Z
  | Str s => negb (s =? "")
  | Arr _ | Obj _ => true
  end.

(** [a || b] *)
Definition or (a b : value) : value := if truthy a then a else b.

(** [s || fallback] on strings, as in [err.message || 'Login failed']. *)
Definition or_str (s fallback : string) : string :=
  if (s =? "") then fallback else s.

Fixpoint lookup (k : string) (fields : list (string * value)) : value :=
  match fields with
  | [] => Undefined
  | (k', v) :: rest => if (k =? k') then v else lookup k rest
  end.

(** [v.k] for a property name [k] that no prototype defines (all the names
    the pages read are of that kind).  Reading a property of [null] or
    [undefined] throws a [TypeError]; the message is V8's wording. *)
Definition type_error (base k : string) : error :=
  Error "TypeError"
        ("Cannot read properties of " ++ base ++ " (reading '" ++ k ++ "')").

Definition get (v : value) (k : string) : outcome value :=
  match v with
  | Undefined => Rejected (type_error "undefined" k)
  | Null => Rejected (type_error "null" k)
  | Obj fields => Resolved (lookup k fields)
  | Bool _ | Num _ | Str _ | Arr _ => Resolved Undefined
  end.

Definition num_to_string (z : Z) : string :=
  NilZero.string_of_int (Z.to_int z).

(** [String(v)], the conversion a template literal applies. *)
Fixpoint to_string (v : value) : string :=
  match v with
  | Undefined => "undefined"
  | Null => "null"
  | Bool true => "true"
  | Bool false => "false"
  | Num z => num_to_string z
  | Str s => s
  | Arr items =>
      let item x :=
        match x with
        | Undefined | Null => ""
        | _ => to_string x
        end in
      (fix join (l : list value) : string :=
         match l with
         | [] => ""
         | [x] => item x
         | x :: rest => item x ++ "," ++ join rest
         end) items
  | Obj _ => "[object Object]"
  end.

End Js.

(** ** Requests and responses *)

Module Http.

Inductive method : Type := GET | POST.

(** A body is kept as the value that is serialised: the argument of
    [JSON.stringify], or the [URLSearchParams] entries. *)
Inductive body : Type :=
| NoBody
| JsonBody (v : Js.value)
| FormBody (params : list (string * string)).

Record request : Type := Request {
  meth : method;
  url : string;
  headers : list (string * string);
  payload : body
}.

(** [ok] is [response.ok]; [json] is how [await response.json()] settles,
    at the type the page gives to the parsed document. *)
Record response (A : Type) : Type := Response {
  ok : bool;
  json : Js.outcome A
}.
Arguments Response {A} ok json.
Arguments ok {A} r.
Arguments json {A} r.

(** How the promise returned by [fetch] settles. *)
Definition result (A : Type) : Type := Js.outcome (response A).

(** [`Bearer ${token}`] for [token = localStorage.getItem('token')]. *)
Definition bearer (token : option string) : string * string :=
  ("Authorization",
   "Bearer " ++ match token with Some t => t | None => "null" end).

End Http.

(** ** The interfaces declared by the admin page *)

Module ScraperLog.
Record t : Type := Make {
  id : Z;
  status : string;
  records_extracted : Z;
  error_message : option string;
  run_date : string;
  created_at : string
}.
End ScraperLog.

Module ScraperStatus.
Record t : Type := Make {
  status : string;
  last_run : option string;
  last_status : option string;
  total_records : Z;
  last_extraction_count : Z
}.
End ScraperStatus.

Module Court.
Record t : Type := Make {
  court_number : string;
  court_name : string;
  judge : string;
  url : string;
  has_data : bool
}.
End Court.

Module CourtDiscoveryResponse.
Record t : Type := Make {
  date : string;
  total_courts_checked : Z;
  courts_with_data : Z;
  courts : list Court.t
}.
End CourtDiscoveryResponse.

(** The same four declarations as data, member by member in source order, so
    that their shape can be compared with the data model of the
    specification. *)

Module Decl.

Inductive ts_type : Type :=
| TNumber
| TString
| TBoolean
| TOrNull (t : ts_type)
| TArrayOf (t : ts_type)
| TRef (interface : string).

Definition interface : Type := list (string * ts_type).

Definition ScraperLog : interface :=
  [ ("id", TNumber);
    ("status", TString);
    ("records_extracted", TNumber);
    ("error_message", TOrNull TString);
    ("run_date", TString);
    ("created_at", TString) ].

Definition ScraperStatus : interface :=
  [ ("status", TString);
    ("last_run", TOrNull TString);
    ("last_status", TOrNull TString);
    ("total_records", TNumber);
    ("last_extraction_count", TNumber) ].

Definition Court : interface :=
  [ ("court_number", TString);
    ("court_name", TString);
    ("judge", TString);
    ("url", TString);
    ("has_data", TBoolean) ].

Definition CourtDiscoveryResponse : interface :=
  [ ("date", TString);
    ("total_courts_checked", TNumber);
    ("courts_with_data", TNumber);
    ("courts", TArrayOf (TRef "Court")) ].

Definition members (i : interface) : list string := map fst i.

(** The interface a member's elements have, when the member is an array of
    a named interface. *)
Definition element_interface (i : interface) (member : string)
  : option string :=
  match find (fun m => fst m =? member) i with
  | Some (_, TArrayOf (TRef n)) => Some n
  | _ => None
  end.

Definition resolve (n : string) : option interface :=
  if n =? "ScraperLog" then Some ScraperLog
  else if n =? "ScraperStatus" then Some ScraperStatus
  else if n =? "Court" then Some Court
  else if n =? "CourtDiscoveryResponse" then Some CourtDiscoveryResponse
  else None.

End Decl.

(** The data model of the specification, section 3 and section 6: the field
    names of RunLog, RunStatusSnapshot, CourtSummary and the discovery
    RunSummary, in the order the specification lists them. *)

Module DataModel.
Definition RunLog : list string :=
  ["id"; "status"; "records_extracted"; "error_message"; "run_date";
   "created_at"].
Definition RunStatusSnapshot : list string :=
  ["status"; "last_run"; "last_status"; "total_records";
   "last_extraction_count"].
Definition CourtSummary : list string :=
  ["court_number"; "court_name"; "judge"; "url"; "has_data"].
Definition DiscoverySummary : list string :=
  ["date"; "total_courts_checked"; "courts_with_data"; "courts"].
End DataModel.

(** ** Reading a request URL back

    The discovery URL is built by interpolation, so what it carries is what a
    server reads off it: the path before [?] and the name/value pairs of the
    query.  Percent-decoding is left out; it is the identity on the digits
    and hyphens of a date and on the literals of the page. *)

Module Url.

(** The text before the first [sep], and the text after it if [sep]
    occurs. *)
Fixpoint cut (sep : ascii) (s : string) : string * option string :=
  match s with
  | EmptyString => (EmptyString, None)
  | String c rest =>
      if (c =? sep)%char then (EmptyString, Some rest)
      else let (before, after) := cut sep rest in (String c before, after)
  end.

Fixpoint pieces (sep : ascii) (s : string) : list string :=
  match s with
  | EmptyString => [EmptyString]
  | String c rest =>
      if (c =? sep)%char then EmptyString :: pieces sep rest
      else match pieces sep rest with
           | p :: ps => String c p :: ps
           | [] => [String c EmptyString]
           end
  end.

Definition path (u : string) : string := fst (cut "?" u).

Definition query (u : string) : string :=
  match snd (cut "?" u) with
  | Some q => q
  | None => EmptyString
  end.

Definition pair_of (piece : string) : string * string :=
  let (name, value) := cut "=" piece in
  (name, match value with Some v => v | None => EmptyString end).

Definition params (u : string) : list (string * string) :=
  map pair_of (filter (fun p => negb (p =? "")) (pieces "&" (query u))).

Fixpoint free_of (sep : ascii) (s : string) : bool :=
  match s with
  | EmptyString => true
  | String c rest => negb (c =? sep)%char && free_of sep rest
  end.

End Url.

(** ** The admin page: state *)

Module AdminPage.

(** The document of the progress endpoint, at the type [setLiveLogs]
    requires of [data.logs]: [None] when the member is absent or [null]
    (falsy), [Some l] for an array, which is truthy even when empty. *)
Module Progress.
Record t : Type := Make { logs : option (list string) }.
End Progress.

(** The [useState] cells of [AdminPage], in declaration order.  [error] is
    declared with a string but receives [data.message] and [data.detail]
    of untyped documents, so it holds a JavaScript value. *)
Record State : Type := mkState {
  logs : list ScraperLog.t;
  status : option ScraperStatus.t;
  loading : bool;
  triggering : bool;
  targetDate : string;
  error : Js.value;
  message : string;
  liveLogs : list string;
  discoveryDate : string;
  discovering : bool;
  discoveredCourts : list Court.t;
  selectedCourts : list string;
  fetchingCourts : bool
}.

Definition initial : State :=
  mkState [] None true false "" (Js.Str "") "" [] "" false [] [] false.

Definition setLogs (v : list ScraperLog.t) (s : State) : State :=
  mkState v (status s) (loading s) (triggering s) (targetDate s) (error s)
          (message s) (liveLogs s) (discoveryDate s) (discovering s)
          (discoveredCourts s) (selectedCourts s) (fetchingCourts s).
Definition setStatus (v : option ScraperStatus.t) (s : State) : State :=
  mkState (logs s) v (loading s) (triggering s) (targetDate s) (error s)
          (message s) (liveLogs s) (discoveryDate s) (discovering s)
          (discoveredCourts s) (selectedCourts s) (fetchingCourts s).
Definition setLoading (v : bool) (s : State) : State :=
  mkState (logs s) (status s) v (triggering s) (targetDate s) (error s)
          (message s) (liveLogs s) (discoveryDate s) (discovering s)
          (discoveredCourts s) (selectedCourts s) (fetchingCourts s).
Definition setTriggering (v : bool) (s : State) : State :=
  mkState (logs s) (status s) (loading s) v (targetDate s) (error s)
          (message s) (liveLogs s) (discoveryDate s) (discovering s)
          (discoveredCourts s) (selectedCourts s) (fetchingCourts s).
Definition setTargetDate (v : string) (s : State) : State :=
  mkState (logs s) (status s) (loading s) (triggering s) v (error s)
          (message s) (liveLogs s) (discoveryDate s) (discovering s)
          (discoveredCourts s) (selectedCourts s) (fetchingCourts s).
Definition setError (v : Js.value) (s : State) : State :=
  mkState (logs s) (status s) (loading s) (triggering s) (targetDate s) v
          (message s) (liveLogs s) (discoveryDate s) (discovering s)
          (discoveredCourts s) (selectedCourts s) (fetchingCourts s).
Definition setMessage (v : string) (s : State) : State :=
  mkState (logs s) (status s) (loading s) (triggering s) (targetDate s)
          (error s) v (liveLogs s) (discoveryDate s) (discovering s)
          (discoveredCourts s) (selectedCourts s) (fetchingCourts s).
Definition setLiveLogs (v : list string) (s : State) : State :=
  mkState (logs s) (status s) (loading s) (triggering s) (targetDate s)
          (error s) (message s) v (discoveryDate s) (discovering s)
          (discoveredCourts s) (selectedCourts s) (fetchingCourts s).
Definition setDiscoveryDate (v : string) (s : State) : State :=
  mkState (logs s) (status s) (loading s) (triggering s) (targetDate s)
          (error s) (message s) (liveLogs s) v (discovering s)
          (discoveredCourts s) (selectedCourts s) (fetchingCourts s).
Definition setDiscovering (v : bool) (s : State) : State :=
  mkState (logs s) (status s) (loading s) (triggering s) (targetDate s)
          (error s) (message s) (liveLogs s) (discoveryDate s) v
          (discoveredCourts s) (selectedCourts s) (fetchingCourts s).
Definition setDiscoveredCourts (v : list Court.t) (s : State) : State :=
  mkState (logs s) (status s) (loading s) (triggering s) (targetDate s)
          (error s) (message s) (liveLogs s) (discoveryDate s)
          (discovering s) v (selectedCourts s) (fetchingCourts s).
Definition setSelectedCourts (v : list string) (s : State) : State :=
  mkState (logs s) (status s) (loading s) (triggering s) (targetDate s)
          (error s) (message s) (liveLogs s) (discoveryDate s)
          (discovering s) (discoveredCourts s) v (fetchingCourts s).
Definition setFetchingCourts (v : bool) (s : State) : State :=
  mkState (logs s) (status s) (loading s) (triggering s) (targetDate s)
          (error s) (message s) (liveLogs s) (discoveryDate s)
          (discovering s) (discoveredCourts s) (selectedCourts s) v.

(** The part of the browser the page touches. *)
Record Browser : Type := mkBrowser {
  token : option string;     (* localStorage.getItem('token') *)
  interval : option Z;       (* the live interval of the progress effect, with its delay in ms *)
  polls : nat;               (* progress requests not settled yet *)
  loads : nat;               (* fetchData calls not settled yet *)
  stops : nat;               (* stop requests not settled yet *)
  sent : list Http.request   (* every request handed to fetch, oldest first *)
}.

Record World : Type := mkWorld { ui : State; browser : Browser }.

Definition render_with (f : State -> State) (w : World) : World :=
  mkWorld (f (ui w)) (browser w).

Definition fetch (r : Http.request) (w : World) : World :=
  let b := browser w in
  mkWorld (ui w)
          (mkBrowser (token b) (interval b) (polls b) (loads b) (stops b)
                     (sent b ++ [r])%list).

Definition setInterval (ms : Z) (w : World) : World :=
  let b := browser w in
  mkWorld (ui w)
          (mkBrowser (token b) (Some ms) (polls b) (loads b) (stops b)
                     (sent b)).

Definition clearInterval (w : World) : World :=
  let b := browser w in
  mkWorld (ui w)
          (mkBrowser (token b) None (polls b) (loads b) (stops b) (sent b)).

Definition pending_polls (f : nat -> nat) (w : World) : World :=
  let b := browser w in
  mkWorld (ui w)
          (mkBrowser (token b) (interval b) (f (polls b)) (loads b)
                     (stops b) (sent b)).

Definition pending_loads (f : nat -> nat) (w : World) : World :=
  let b := browser w in
  mkWorld (ui w)
          (mkBrowser (token b) (interval b) (polls b) (f (loads b))
                     (stops b) (sent b)).

Definition pending_stops (f : nat -> nat) (w : World) : World :=
  let b := browser w in
  mkWorld (ui w)
          (mkBrowser (token b) (interval b) (polls b) (loads b)
                     (f (stops b)) (sent b)).

(** Handlers are written as a sequence of calls, first call first. *)
Notation "w '|>' f" := (f w) (at level 45, left associativity, only parsing).

Definition authorization (w : World) : string * string :=
  Http.bearer (token (browser w)).

(** *** [stopScraper] *)

Definition stop_url : string := "/api/proxy/api/scraper/stop".

Definition stop_request (w : World) : Http.request :=
  Http.Request Http.POST stop_url [authorization w] Http.NoBody.

Definition stopScraper (w : World) : World :=
  w |> fetch (stop_request w) |> pending_stops S.

(** The response is not looked at; a rejection goes to [console.error]. *)
Definition stopScraper_settled (r : Http.result Js.value) (w : World)
  : World :=
  match r with
  | Js.Resolved _ => w |> render_with (setMessage "Stop requested...")
  | Js.Rejected _ => w
  end |> pending_stops pred.

(** *** The progress effect, [useEffect(..., [triggering, discovering, fetchingCourts])] *)

Definition run_active (s : State) : bool :=
  triggering s || discovering s || fetchingCourts s.

Definition poll_delay : Z := 2000.

Definition progress_request (w : World) : Http.request :=
  Http.Request Http.GET "/api/proxy/api/scraper/progress"
               [authorization w] Http.NoBody.

(** The effect body. *)
Definition progress_effect (w : World) : World :=
  if run_active (ui w)
  then w |> render_with (setLiveLogs []) |> setInterval poll_delay
  else w.

(** The function the effect returns. *)
Definition progress_cleanup (w : World) : World := clearInterval w.

(** One firing of the interval callback, up to its [await fetch]. *)
Definition poll (w : World) : World :=
  w |> fetch (progress_request w) |> pending_polls S.

(** The rest of the callback.  Nothing in the cleanup cancels it. *)
Definition poll_settled (r : Http.result Progress.t) (w : World) : World :=
  match r with
  | Js.Resolved res =>
      if Http.ok res then
        match Http.json res with
        | Js.Resolved data =>
            match Progress.logs data with
            | Some l => w |> render_with (setLiveLogs l)
            | None => w
            end
        | Js.Rejected _ => w
        end
      else w
  | Js.Rejected _ => w
  end |> pending_polls pred.

Definition same_deps (a b : State) : bool :=
  Bool.eqb (triggering a) (triggering b)
  && Bool.eqb (discovering a) (discovering b)
  && Bool.eqb (fetchingCourts a) (fetchingCourts b).

(** React after a handler has run: when a dependency differs from the
    previous render, the old effect is cleaned up and the effect runs
    again. *)
Definition commit (before : State) (w : World) : World :=
  if same_deps before (ui w) then w
  else w |> progress_cleanup |> progress_effect.

(** *** [fetchData] *)

Definition status_request (w : World) : Http.request :=
  Http.Request Http.GET "/api/proxy/api/scraper/status"
               [authorization w] Http.NoBody.

Definition logs_request (w : World) : Http.request :=
  Http.Request Http.GET "/api/proxy/api/scraper/logs"
               [authorization w] Http.NoBody.

(** [!token] *)
Definition no_token (w : World) : bool :=
  match token (browser w) with
  | None => true
  | Some t => t =? ""
  end.

Definition fetchData (w : World) : World :=
  if no_token w then
    w |> render_with (setError (Js.Str "Please login first"))
      |> render_with (setLoading false)
      |> render_with (setLoading false)
  else
    w |> fetch (status_request w) |> fetch (logs_request w)
      |> pending_loads S.

Definition fetchData_catch (err : Js.error) (w : World) : World :=
  w |> render_with
         (setError (Js.Str (Js.or_str (Js.message err) "Failed to load data"))).

(** From the settling of [Promise.all] on. *)
Definition fetchData_settled
  (r : Js.outcome (Http.response ScraperStatus.t
                   * Http.response (list ScraperLog.t)))
  (w : World) : World :=
  match r with
  | Js.Rejected err => fetchData_catch err w
  | Js.Resolved (statusRes, logsRes) =>
      let after_status :=
        if Http.ok statusRes then
          match Http.json statusRes with
          | Js.Resolved statusData =>
              Js.Resolved (w |> render_with (setStatus (Some statusData)))
          | Js.Rejected err => Js.Rejected err
          end
        else Js.Resolved w in
      match after_status with
      | Js.Rejected err => fetchData_catch err w
      | Js.Resolved w1 =>
          if Http.ok logsRes then
            match Http.json logsRes with
            | Js.Resolved logsData => w1 |> render_with (setLogs logsData)
            | Js.Rejected err => fetchData_catch err w1
            end
          else w1
      end
  end |> render_with (setLoading false) |> pending_loads pred.

(** *** [triggerScraper] *)

Definition trigger_url (s : State) : string :=
  "/api/proxy/api/scraper/trigger"
  ++ (if targetDate s =? "" then "" else "?target_date=" ++ targetDate s).

Definition trigger_request (w : World) : Http.request :=
  Http.Request Http.POST (trigger_url (ui w)) [authorization w] Http.NoBody.

Definition triggerScraper (w : World) : World :=
  w |> render_with (setTriggering true)
    |> render_with (setMessage "")
    |> render_with (setError (Js.Str ""))
    |> fetch (trigger_request w).

Definition triggerScraper_catch (err : Js.error) (w : World) : World :=
  w |> render_with
         (setError
            (Js.Str (Js.or_str (Js.message err) "Failed to trigger scraper"))).

Definition triggerScraper_settled (r : Http.result Js.value) (w : World)
  : World :=
  match r with
  | Js.Rejected err => triggerScraper_catch err w
  | Js.Resolved response =>
      match Http.json response with
      | Js.Rejected err => triggerScraper_catch err w
      | Js.Resolved data =>
          if Http.ok response then
            match Js.get data "records_extracted" with
            | Js.Rejected err => triggerScraper_catch err w
            | Js.Resolved n =>
                w |> render_with
                       (setMessage ("Scraper completed! Extracted "
                                    ++ Js.to_string n ++ " records."))
                  |> fetchData
            end
          else
            match Js.get data "message" with
            | Js.Rejected err => triggerScraper_catch err w
            | Js.Resolved m =>
                w |> render_with
                       (setError
                          (Js.or m (Js.Str "Failed to trigger scraper")))
            end
      end
  end |> render_with (setTriggering false).

(** *** [discoverCourts] *)

Definition discover_path : string := "/api/proxy/api/scraper/discover-courts".

Definition discover_url (s : State) : string :=
  discover_path ++ "?target_date=" ++ discoveryDate s
                ++ "&court_start=1&court_end=60".

Definition discover_request (w : World) : Http.request :=
  Http.Request Http.GET (discover_url (ui w)) [authorization w] Http.NoBody.

Definition discoverCourts (w : World) : World :=
  if discoveryDate (ui w) =? "" then
    w |> render_with
           (setError (Js.Str "Please select a date for court discovery"))
  else
    w |> render_with (setDiscovering true)
      |> render_with (setError (Js.Str ""))
      |> render_with (setMessage "")
      |> render_with (setDiscoveredCourts [])
      |> render_with (setSelectedCourts [])
      |> fetch (discover_request w).

Definition discoverCourts_catch (err : Js.error) (w : World) : World :=
  w |> render_with
         (setError
            (Js.Str (Js.or_str (Js.message err) "Failed to discover courts"))).

Definition discovery_message (data : CourtDiscoveryResponse.t) : string :=
  "Found "
  ++ Js.num_to_string (CourtDiscoveryResponse.courts_with_data data)
  ++ " courts with data out of "
  ++ Js.num_to_string (CourtDiscoveryResponse.total_courts_checked data)
  ++ " checked".

Definition discoverCourts_settled
  (r : Http.result CourtDiscoveryResponse.t) (w : World) : World :=
  match r with
  | Js.Rejected err => discoverCourts_catch err w
  | Js.Resolved response =>
      match Http.json response with
      | Js.Rejected err => discoverCourts_catch err w
      | Js.Resolved data =>
          if Http.ok response then
            let w1 :=
              w |> render_with
                     (setDiscoveredCourts (CourtDiscoveryResponse.courts data))
                |> render_with (setMessage (discovery_message data)) in
            if (0 <? length (CourtDiscoveryResponse.courts data))%nat then
              w1 |> render_with
                      (setSelectedCourts
                         (map Court.court_number
                              (CourtDiscoveryResponse.courts data)))
            else w1
          else
            w |> render_with (setError (Js.Str "Failed to discover courts"))
      end
  end |> render_with (setDiscovering false).

(** *** [fetchSelectedCourts] *)

Definition fetch_court_data_request (w : World) : Http.request :=
  Http.Request
    Http.POST "/api/proxy/api/scraper/fetch-court-data"
    [authorization w; ("Content-Type", "application/json")]
    (Http.JsonBody
       (Js.Obj [ ("target_date", Js.Str (discoveryDate (ui w)));
                 ("court_numbers",
                  Js.Arr (map Js.Str (selectedCourts (ui w)))) ])).

Definition fetchSelectedCourts (w : World) : World :=
  if (length (selectedCourts (ui w)) =? 0)%nat then
    w |> render_with (setError (Js.Str "No courts selected"))
  else
    w |> render_with (setFetchingCourts true)
      |> render_with (setError (Js.Str ""))
      |> render_with (setMessage "")
      |> fetch (fetch_court_data_request w).

Definition fetchSelectedCourts_catch (err : Js.error) (w : World) : World :=
  w |> render_with
         (setError
            (Js.Str (Js.or_str (Js.message err) "Failed to fetch court data"))).

Definition fetch_message (total_cases_saved courts_processed : Js.value)
  : string :=
  "Successfully saved " ++ Js.to_string total_cases_saved
  ++ " cases from " ++ Js.to_string courts_processed ++ " courts".

Definition fetchSelectedCourts_settled (r : Http.result Js.value) (w : World)
  : World :=
  match r with
  | Js.Rejected err => fetchSelectedCourts_catch err w
  | Js.Resolved response =>
      match Http.json response with
      | Js.Rejected err => fetchSelectedCourts_catch err w
      | Js.Resolved data =>
          if Http.ok response then
            match Js.get data "total_cases_saved",
                  Js.get data "courts_processed" with
            | Js.Resolved saved, Js.Resolved processed =>
                w |> render_with (setMessage (fetch_message saved processed))
                  |> fetchData
            | Js.Rejected err, _ | _, Js.Rejected err =>
                fetchSelectedCourts_catch err w
            end
          else
            match Js.get data "detail" with
            | Js.Rejected err => fetchSelectedCourts_catch err w
            | Js.Resolved d =>
                w |> render_with
                       (setError
                          (Js.or d (Js.Str "Failed to fetch court data")))
            end
      end
  end |> render_with (setFetchingCourts false).

(** *** Selection *)

(** [prev.includes(courtNumber)] *)
Definition includes (prev : list string) (courtNumber : string) : bool :=
  existsb (fun c => c =? courtNumber) prev.

(** The updater [toggleCourtSelection] passes to [setSelectedCourts]. *)
Definition toggle (courtNumber : string) (prev : list string) : list string :=
  if includes prev courtNumber
  then filter (fun c => negb (c =? courtNumber)) prev
  else (prev ++ [courtNumber])%list.

Definition toggleCourtSelection (courtNumber : string) (s : State) : State :=
  setSelectedCourts (toggle courtNumber (selectedCourts s)) s.

Definition selectAllCourts (s : State) : State :=
  setSelectedCourts (map Court.court_number (discoveredCourts s)) s.

Definition deselectAllCourts (s : State) : State :=
  setSelectedCourts [] s.

(** [onChange] of the checkbox in the table head. *)
Definition toggleAll (s : State) : State :=
  if (length (selectedCourts s) =? length (discoveredCourts s))%nat
  then deselectAllCourts s
  else selectAllCourts s.

(** *** What the page renders *)

Inductive control : Type :=
| TargetDateInput
| RunScraperNow            (* the button next to the date input *)
| Stop
| TriggerScraperManually   (* the button under the status grid *)
| DiscoveryDateInput
| DiscoverCourts
| SelectAll
| DeselectAll
| AllCourtsCheckbox
| CourtCheckbox (court_number : string)
| FetchSelected.

Definition control_eqb (a b : control) : bool :=
  match a, b with
  | TargetDateInput, TargetDateInput
  | RunScraperNow, RunScraperNow
  | Stop, Stop
  | TriggerScraperManually, TriggerScraperManually
  | DiscoveryDateInput, DiscoveryDateInput
  | DiscoverCourts, DiscoverCourts
  | SelectAll, SelectAll
  | DeselectAll, DeselectAll
  | AllCourtsCheckbox, AllCourtsCheckbox
  | FetchSelected, FetchSelected => true
  | CourtCheckbox x, CourtCheckbox y => x =? y
  | _, _ => false
  end.

(** A rendered control and its [disabled] attribute. *)
Record widget : Type := Widget { ctl : control; disabled : bool }.

Definition render (s : State) : list widget :=
  if loading s then []
  else
    ([ Widget TargetDateInput false;
       Widget RunScraperNow (triggering s) ]
     ++ (if triggering s then [Widget Stop false] else [])
     ++ [ Widget TriggerScraperManually (triggering s);
          Widget DiscoveryDateInput false;
          Widget DiscoverCourts
                 (discovering s || (discoveryDate s =? "")) ]
     ++ (if (0 <? length (discoveredCourts s))%nat then
           [ Widget SelectAll false;
             Widget DeselectAll false;
             Widget AllCourtsCheckbox false ]
           ++ map (fun court =>
                     Widget (CourtCheckbox (Court.court_number court)) false)
                  (discoveredCourts s)
           ++ [ Widget FetchSelected
                       (fetchingCourts s
                        || (length (selectedCourts s) =? 0)%nat) ]
         else []))%list.

(** The user can operate a control when it is rendered and not disabled. *)
Definition operable (c : control) (s : State) : bool :=
  existsb (fun x => control_eqb (ctl x) c && negb (disabled x)) (render s).

(** *** Events *)

(** A date input holds the empty string or a date [yyyy-mm-dd]: digits and
    hyphens in either case. *)
Definition date_char (c : ascii) : bool :=
  ((48 <=? nat_of_ascii c) && (nat_of_ascii c <=? 57))%nat
  || (c =? "-")%char.

Fixpoint date_input_value (v : string) : bool :=
  match v with
  | EmptyString => true
  | String c rest => date_char c && date_input_value rest
  end.

Inductive event : Type :=
| Click (c : control)
| Change (c : control) (value : string)
| Tick
| PollSettled (r : Http.result Progress.t)
| StopSettled (r : Http.result Js.value)
| LoadSettled (r : Js.outcome (Http.response ScraperStatus.t
                               * Http.response (list ScraperLog.t)))
| TriggerSettled (r : Http.result Js.value)
| DiscoverSettled (r : Http.result CourtDiscoveryResponse.t)
| FetchSettled (r : Http.result Js.value).

Definition onClick (c : control) (w : World) : World :=
  match c with
  | RunScraperNow | TriggerScraperManually => triggerScraper w
  | Stop => stopScraper w
  | DiscoverCourts => discoverCourts w
  | SelectAll => w |> render_with selectAllCourts
  | DeselectAll => w |> render_with deselectAllCourts
  | AllCourtsCheckbox => w |> render_with toggleAll
  | CourtCheckbox n => w |> render_with (toggleCourtSelection n)
  | FetchSelected => fetchSelectedCourts w
  | TargetDateInput | DiscoveryDateInput => w
  end.

Definition onChange (c : control) (value : string) (w : World)
  : option World :=
  match c with
  | TargetDateInput => Some (w |> render_with (setTargetDate value))
  | DiscoveryDateInput => Some (w |> render_with (setDiscoveryDate value))
  | _ => None
  end.

(** What an event does before React commits, or [None] when it cannot
    occur: a control that is not operable, a promise that is not pending, an
    interval that is not live.  A run's request is pending exactly while its
    flag is set. *)
Definition handle (e : event) (w : World) : option World :=
  match e with
  | Click c =>
      if operable c (ui w) then Some (onClick c w) else None
  | Change c value =>
      if operable c (ui w) && date_input_value value
      then onChange c value w else None
  | Tick =>
      match interval (browser w) with
      | Some _ => Some (poll w)
      | None => None
      end
  | PollSettled r =>
      if (0 <? polls (browser w))%nat then Some (poll_settled r w) else None
  | StopSettled r =>
      if (0 <? stops (browser w))%nat
      then Some (stopScraper_settled r w) else None
  | LoadSettled r =>
      if (0 <? loads (browser w))%nat
      then Some (fetchData_settled r w) else None
  | TriggerSettled r =>
      if triggering (ui w) then Some (triggerScraper_settled r w) else None
  | DiscoverSettled r =>
      if discovering (ui w) then Some (discoverCourts_settled r w) else None
  | FetchSettled r =>
      if fetchingCourts (ui w)
      then Some (fetchSelectedCourts_settled r w) else None
  end.

Definition step (w : World) (e : event) : option World :=
  match handle e w with
  | Some w' => Some (commit (ui w) w')
  | None => None
  end.

Fixpoint run (w : World) (trace : list event) : option World :=
  match trace with
  | [] => Some w
  | e :: rest =>
      match step w e with
      | Some w' => run w' rest
      | None => None
      end
  end.

(** The page after its first render: both effects have run, the progress
    effect with no flag set and the one that calls [fetchData]. *)
Definition mount (stored_token : option string) : World :=
  mkWorld initial (mkBrowser stored_token None 0 0 0 [])
    |> progress_effect |> fetchData.

Definition reachable (w : World) : Prop :=
  exists stored_token trace, run (mount stored_token) trace = Some w.

(** *** Notions the properties of the page are stated with *)

(** The controls whose handler starts a run, and for each the flag its own
    handler sets while that run is pending. *)
Definition starts_run (c : control) : bool :=
  match c with
  | RunScraperNow | TriggerScraperManually | DiscoverCourts | FetchSelected =>
      true
  | _ => false
  end.

Definition own_flag (c : control) (s : State) : bool :=
  match c with
  | RunScraperNow | TriggerScraperManually => triggering s
  | DiscoverCourts => discovering s
  | FetchSelected => fetchingCourts s
  | _ => false
  end.

(** The dependency list of the progress effect. *)
Definition flags (s : State) : bool * bool * bool :=
  (triggering s, discovering s, fetchingCourts s).

(** Some run flag is raised from [s] to [s']. *)
Definition starts (s s' : State) : bool :=
  (negb (triggering s) && triggering s')
  || (negb (discovering s) && discovering s')
  || (negb (fetchingCourts s) && fetchingCourts s').

Definition is_poll_settled (e : event) : bool :=
  match e with
  | PollSettled _ => true
  | _ => false
  end.

(** The interval is live exactly while a run flag is set. *)
Definition polling_inv (w : World) : Prop :=
  interval (browser w) = if run_active (ui w) then Some poll_delay else None.

(** None of the requests goes to the stop endpoint. *)
Definition harmless (rs : list Http.request) : Prop :=
  forall r, In r rs -> Url.path (Http.url r) <> stop_url.

(** Every selected court number is the number of a discovered court. *)
Definition selection_within (s : State) : Prop :=
  incl (selectedCourts s) (map Court.court_number (discoveredCourts s)).

(** The three cells the selection invariant reads. *)
Definition selection_cells (s : State) : bool * list Court.t * list string :=
  (discovering s, discoveredCourts s, selectedCourts s).

(** While a discovery is pending both lists are empty. *)
Definition selection_inv (s : State) : Prop :=
  selection_within s
  /\ (discovering s = true ->
      discoveredCourts s = [] /\ selectedCourts s = []).

(** The world a trace leads to from the mounted page. *)
Definition after (stored_token : option string) (trace : list event) : World :=
  match run (mount stored_token) trace with
  | Some w => w
  | None => mount stored_token
  end.

(** *** More of what the page renders *)

(** [liveLogs.join('\n')] *)
Fixpoint join (sep : string) (lines : list string) : string :=
  match lines with
  | [] => ""
  | [x] => x
  | x :: rest => x ++ sep ++ join sep rest
  end.

Definition newline : string := String (ascii_of_nat 10) EmptyString.

(** The text of the "Live Logs" panel, or [None] when the panel is not
    rendered. *)
Definition live_panel (s : State) : option string :=
  if loading s then None
  else if triggering s then
    Some (if (0 <? length (liveLogs s))%nat
          then join newline (liveLogs s)
          else "Waiting for logs...")
  else None.

(** [checked] of the checkbox in the table head and of a court's row. *)
Definition all_checked (s : State) : bool :=
  (length (selectedCourts s) =? length (discoveredCourts s))%nat.

Definition court_checked (court_number : string) (s : State) : bool :=
  includes (selectedCourts s) court_number.

(** The shapes of the requests the page hands to [fetch]. *)
Definition request_shape (r : Http.request) : Http.method * string * bool :=
  (Http.meth r, Url.path (Http.url r),
   match Http.payload r with
   | Http.NoBody => false
   | _ => true
   end).

Definition request_shapes : list (Http.method * string * bool) :=
  [ (Http.GET, "/api/proxy/api/scraper/status", false);
    (Http.GET, "/api/proxy/api/scraper/logs", false);
    (Http.GET, "/api/proxy/api/scraper/progress", false);
    (Http.GET, "/api/proxy/api/scraper/discover-courts", false);
    (Http.POST, "/api/proxy/api/scraper/trigger", false);
    (Http.POST, "/api/proxy/api/scraper/stop", false);
    (Http.POST, "/api/proxy/api/scraper/fetch-court-data", true) ].

(** The court numbers a fetch request names. *)
Definition court_numbers_of (r : Http.request) : option (list Js.value) :=
  match Http.payload r with
  | Http.JsonBody (Js.Obj fields) =>
      match Js.lookup "court_numbers" fields with
      | Js.Arr items => Some items
      | _ => None
      end
  | _ => None
  end.

(** The page shows "Loading..." only with a load pending and nothing else
    going on. *)
Definition loading_inv (w : World) : Prop :=
  loading (ui w) = true ->
  (0 < loads (browser w))%nat /\ run_active (ui w) = false
  /\ status (ui w) = None /\ logs (ui w) = [].

(** The run flags after an event, as the event alone decides them. *)
Definition flags_after (e : event) (w : World) : bool * bool * bool :=
  match e with
  | Click RunScraperNow | Click TriggerScraperManually =>
      (true, discovering (ui w), fetchingCourts (ui w))
  | Click DiscoverCourts =>
      (triggering (ui w), true, fetchingCourts (ui w))
  | Click FetchSelected =>
      (triggering (ui w), discovering (ui w), true)
  | TriggerSettled _ => (false, discovering (ui w), fetchingCourts (ui w))
  | DiscoverSettled _ => (triggering (ui w), false, fetchingCourts (ui w))
  | FetchSettled _ => (triggering (ui w), discovering (ui w), false)
  | _ => flags (ui w)
  end.

(** The requests a handler running in world [w] can hand to [fetch]. *)
Definition emitted (w : World) (r : Http.request) : Prop :=
  (no_token w = false /\ (r = status_request w \/ r = logs_request w))
  \/ r = progress_request w
  \/ r = stop_request w
  \/ r = trigger_request w
  \/ r = discover_request w
  \/ r = fetch_court_data_request w.

(** Distinct discovered court numbers keep the selection duplicate-free. *)
Definition distinct_inv (s : State) : Prop :=
  NoDup (map Court.court_number (discoveredCourts s)) ->
  NoDup (selectedCourts s).

(** [run] along a trace on which no run is active after any step. *)
Fixpoint idle_run (w : World) (trace : list event) : option World :=
  match trace with
  | [] => Some w
  | e :: rest =>
      match step w e with
      | Some w' => if run_active (ui w') then None else idle_run w' rest
      | None => None
      end
  end.

(** The number of unanswered polls after an event. *)
Definition polls_after (e : event) (n : nat) : nat :=
  match e with
  | Tick => S n
  | PollSettled _ => pred n
  | _ => n
  end.

End AdminPage.


(** ** The discovery run behind the endpoint *)

Module Backend.

(** Modelled from the spec: the decimal court numbers of the "court-number
    range" parameter of the discovery trigger (section 6). *)
Fixpoint digits (acc : nat) (s : string) : option nat :=
  match s with
  | EmptyString => Some acc
  | String c rest =>
      let d := nat_of_ascii c in
      if ((48 <=? d) && (d <=? 57))%nat
      then digits (10 * acc + (d - 48)) rest
      else None
  end.

(** Modelled from the spec: a court-number parameter is a non-empty run of
    decimal digits. *)
Definition parse_nat (s : string) : option nat :=
  match s with
  | EmptyString => None
  | _ => digits 0 s
  end.

(** Modelled from the spec: the value of a named parameter of the trigger. *)
Fixpoint param (name : string) (ps : list (string * string))
  : option string :=
  match ps with
  | [] => None
  | (k, v) :: rest => if k =? name then Some v else param name rest
  end.

Section Discovery.

(** The fetched cause document, what the court filter finds in it for a
    court, and the summary derived for a court. *)
Variable CauseDocument : Type.
Variable has_entries : CauseDocument -> nat -> bool.
Variable summary : CauseDocument -> nat -> Court.t.

(** Modelled from the spec: the court numbers of the requested range, both
    ends included ("Discovery with range [1,60] ... returns
    total_courts_checked = 60", section 8). *)
Definition court_range (court_start court_end : nat) : list nat :=
  seq court_start (S court_end - court_start).

(** Modelled from the spec: the backend's discovery run (RunCoordinator
    in discovery mode, section 4.4, with the RunSummary of section 6),
    which is not among the sources.  For each court number in the
    requested range the filter determines [has_data]; the result is the
    sequence of court summaries with the two aggregate counts. *)
Definition discover (doc : CauseDocument) (date : string)
           (court_start court_end : nat) : CourtDiscoveryResponse.t :=
  let checked := court_range court_start court_end in
  let live := filter (has_entries doc) checked in
  CourtDiscoveryResponse.Make
    date
    (Z.of_nat (length checked))
    (Z.of_nat (length live))
    (map (summary doc) live).

(** Modelled from the spec: the discovery trigger of section 6, "params:
    date, court-number range", applied to the parameters of a request. *)
Definition discover_courts (doc : CauseDocument)
           (ps : list (string * string))
  : option CourtDiscoveryResponse.t :=
  match param "target_date" ps,
        param "court_start" ps, param "court_end" ps with
  | Some date, Some a, Some b =>
      match parse_nat a, parse_nat b with
      | Some court_start, Some court_end =>
          Some (discover doc date court_start court_end)
      | _, _ => None
      end
  | _, _, _ => None
  end.

End Discovery.

End Backend.

(** ** The login page *)

Module LoginPage.

Record State : Type := mkState {
  username : string;
  password : string;
  loading : bool;
  error : string
}.

Definition setLoading (v : bool) (s : State) : State :=
  mkState (username s) (password s) v (error s).
Definition setError (v : string) (s : State) : State :=
  mkState (username s) (password s) (loading s) v.

Record Browser : Type := mkBrowser {
  storage : list (string * string);  (* localStorage.setItem calls, latest first *)
  pushed : list string;              (* router.push calls, latest first *)
  timer : option Z;                  (* the pending timeout that aborts, with its delay in ms *)
  sent : list Http.request
}.

Record World : Type := mkWorld { ui : State; browser : Browser }.

Notation "w '|>' f" := (f w) (at level 45, left associativity, only parsing).

Definition render_with (f : State -> State) (w : World) : World :=
  mkWorld (f (ui w)) (browser w).

Definition setTimeout (ms : Z) (w : World) : World :=
  let b := browser w in
  mkWorld (ui w) (mkBrowser (storage b) (pushed b) (Some ms) (sent b)).

Definition clearTimeout (w : World) : World :=
  let b := browser w in
  mkWorld (ui w) (mkBrowser (storage b) (pushed b) None (sent b)).

Definition fetch (r : Http.request) (w : World) : World :=
  let b := browser w in
  mkWorld (ui w)
          (mkBrowser (storage b) (pushed b) (timer b) (sent b ++ [r])%list).

Definition setItem (key value : string) (w : World) : World :=
  let b := browser w in
  mkWorld (ui w)
          (mkBrowser ((key, value) :: storage b) (pushed b) (timer b)
                     (sent b)).

Definition push (route : string) (w : World) : World :=
  let b := browser w in
  mkWorld (ui w)
          (mkBrowser (storage b) (route :: pushed b) (timer b) (sent b)).

Definition abort_delay : Z := 10000.

Definition timeout_message : string :=
  "Login timed out. Please ensure the backend API is running and try again.".

Definition token_request (s : State) : Http.request :=
  Http.Request
    Http.POST "/api/proxy/api/auth/token"
    [("Content-Type", "application/x-www-form-urlencoded")]
    (Http.FormBody [ ("username", username s);
                     ("password", password s);
                     ("scope", "") ]).

(** [handleLogin] up to [await fetch]. *)
Definition handleLogin_submit (w : World) : World :=
  w |> render_with (setLoading true)
    |> render_with (setError "")
    |> setTimeout abort_delay
    |> fetch (token_request (ui w)).

(** What the auth endpoint does with the request: after how many ms the
    last promise the handler awaits would settle, and how. *)
Record reply : Type := Reply {
  latency : Z;
  settles : Http.result Js.value
}.

(** What [controller.abort()] makes the pending promise reject with. *)
Definition abort_error : Js.error :=
  Js.Error "AbortError" "signal is aborted without reason".

(** What the handler sees: the timer fires first when the endpoint takes
    longer than the timer's delay. *)
Definition awaited (w : World) (r : reply) : Http.result Js.value :=
  match timer (browser w) with
  | Some ms => if (ms <? latency r)%Z then Js.Rejected abort_error
               else settles r
  | None => settles r
  end.

Definition handleLogin_catch (err : Js.error) (w : World) : World :=
  if Js.name err =? "AbortError"
  then w |> render_with (setError timeout_message)
  else w |> render_with (setError (Js.or_str (Js.message err) "Login failed")).

Definition handleLogin_finally (w : World) : World :=
  match timer (browser w) with
  | Some _ => clearTimeout w
  | None => w
  end |> render_with (setLoading false).

Definition handleLogin_settled (r : Http.result Js.value) (w : World)
  : World :=
  match r with
  | Js.Rejected err => handleLogin_catch err w
  | Js.Resolved response =>
      if negb (Http.ok response)
      then handleLogin_catch (Js.Error "Error" "Invalid credentials") w
      else
        match Http.json response with
        | Js.Rejected err => handleLogin_catch err w
        | Js.Resolved data =>
            match Js.get data "access_token" with
            | Js.Rejected err => handleLogin_catch err w
            | Js.Resolved access_token =>
                w |> setItem "token" (Js.to_string access_token)
                  |> push "/search"
            end
        end
  end |> handleLogin_finally.

Definition handleLogin (r : reply) (w : World) : World :=
  let w1 := handleLogin_submit w in
  handleLogin_settled (awaited w1 r) w1.

(** *** The form as a machine *)

Definition setUsername (v : string) (s : State) : State :=
  mkState v (password s) (loading s) (error s).
Definition setPassword (v : string) (s : State) : State :=
  mkState (username s) v (loading s) (error s).

(** [localStorage.getItem]: the latest value stored under the key. *)
Fixpoint lookup (key : string) (items : list (string * string))
  : option string :=
  match items with
  | [] => None
  | (k, v) :: rest => if k =? key then Some v else lookup key rest
  end.

Definition getItem (key : string) (w : World) : option string :=
  lookup key (storage (browser w)).

(** The form can be submitted when the button is not disabled (it is while
    [loading]) and both [required] inputs are filled in. *)
Definition can_submit (s : State) : bool :=
  negb (loading s) && negb (username s =? "") && negb (password s =? "").

Inductive event : Type :=
| ChangeUsername (value : string)
| ChangePassword (value : string)
| Submit
| Settled (r : reply).

(** The request is pending exactly while [loading] is set. *)
Definition step (w : World) (e : event) : option World :=
  match e with
  | ChangeUsername v => Some (w |> render_with (setUsername v))
  | ChangePassword v => Some (w |> render_with (setPassword v))
  | Submit =>
      if can_submit (ui w) then Some (handleLogin_submit w) else None
  | Settled r =>
      if loading (ui w) then Some (handleLogin_settled (awaited w r) w)
      else None
  end.

Fixpoint run (w : World) (trace : list event) : option World :=
  match trace with
  | [] => Some w
  | e :: rest =>
      match step w e with
      | Some w' => run w' rest
      | None => None
      end
  end.

(** The page as first rendered, over what local storage already holds. *)
Definition mount (stored : list (string * string)) : World :=
  mkWorld (mkState "" "" false "") (mkBrowser stored [] None []).

Definition reachable (w : World) : Prop :=
  exists stored trace, run (mount stored) trace = Some w.

(** A token request of the form, with both credentials filled in. *)
Definition credentials_request (r : Http.request) : Prop :=
  exists u p, u <> "" /\ p <> ""
              /\ r = Http.Request
                       Http.POST "/api/proxy/api/auth/token"
                       [("Content-Type", "application/x-www-form-urlencoded")]
                       (Http.FormBody
                          [("username", u); ("password", p); ("scope", "")]).

Definition form_inv (w : World) : Prop :=
  timer (browser w) = (if loading (ui w) then Some abort_delay else None)
  /\ (loading (ui w) = true -> error (ui w) = "")
  /\ (forall route, In route (pushed (browser w)) -> route = "/search")
  /\ (forall r, In r (sent (browser w)) -> credentials_request r).

End LoginPage.

(** ** Sample sessions

    Concrete events and the worlds they lead to, used where a property is
    exercised on an actual session of the page. *)

Module Sample.
Import AdminPage.

Definition snapshot : ScraperStatus.t :=
  ScraperStatus.Make "success" (Some "2025-01-14T06:00:00") (Some "success")
                     120 40.

(** The first [fetchData] succeeds: the page stops showing "Loading...". *)
Definition loaded : event :=
  LoadSettled
    (Js.Resolved (Http.Response true (Js.Resolved snapshot),
                  Http.Response true (Js.Resolved []))).

(** An ok progress response carrying [lines]. *)
Definition progress (lines : list string) : event :=
  PollSettled
    (Js.Resolved
       (Http.Response true (Js.Resolved (Progress.Make (Some lines))))).

Definition court3 : Court.t :=
  Court.Make "3" "COURT NO. 03" "HON'BLE JUDGE A" "/court/3" true.
Definition court17 : Court.t :=
  Court.Make "17" "COURT NO. 17" "HON'BLE JUDGE B" "/court/17" true.

Definition discovery : CourtDiscoveryResponse.t :=
  CourtDiscoveryResponse.Make "2025-01-15" 60 2 [court3; court17].

Definition discovery_ok : Http.response CourtDiscoveryResponse.t :=
  Http.Response true (Js.Resolved discovery).

Definition scraped : Http.response Js.value :=
  Http.Response true (Js.Resolved (Js.Obj [("records_extracted", Js.Num 40)])).

Definition saved : Js.value :=
  Js.Obj [("total_cases_saved", Js.Num 57); ("courts_processed", Js.Num 2)].

Definition saved_ok : Http.response Js.value :=
  Http.Response true (Js.Resolved saved).

(** The page has loaded; nothing has been entered yet. *)
Definition idle : World := Eval vm_compute in after (Some "t") [loaded].

(** The page has loaded and the operator has picked a discovery date. *)
Definition ready_trace : list event :=
  [loaded; Change DiscoveryDateInput "2025-01-15"].
Definition ready : World := Eval vm_compute in after (Some "t") ready_trace.

(** ... and has then pressed "Run Scraper Now". *)
Definition busy_trace : list event :=
  (ready_trace ++ [Click RunScraperNow])%list.
Definition busy : World := Eval vm_compute in after (Some "t") busy_trace.

(** ... or has instead run a discovery that found courts 3 and 17. *)
Definition chosen_trace : list event :=
  (ready_trace ++ [Click DiscoverCourts; DiscoverSettled (Js.Resolved discovery_ok)])%list.
Definition chosen : World := Eval vm_compute in after (Some "t") chosen_trace.

(** A discovery started while the scraper run is still pending; two polls
    have been answered since. *)
Definition overlap_trace : list event :=
  (busy_trace ++ [Tick; progress ["a"]; Click DiscoverCourts;
                  Tick; progress ["a"; "b"]])%list.
Definition overlap : World := Eval vm_compute in after (Some "t") overlap_trace.

(** A single scraper run that ends while its second poll is unanswered. *)
Definition late_trace : list event :=
  (busy_trace ++ [Tick; progress ["a"]; Tick;
                  TriggerSettled (Js.Resolved scraped)])%list.
Definition late : World := Eval vm_compute in after (Some "t") late_trace.

(** A login form that has been filled in. *)
Definition form : LoginPage.World :=
  LoginPage.mkWorld (LoginPage.mkState "admin" "admin" false "")
                    (LoginPage.mkBrowser [] [] None []).

Definition granted : Http.response Js.value :=
  Http.Response true (Js.Resolved (Js.Obj [("access_token", Js.Str "abc")])).

(** No token is stored; the operator runs the scraper all the same. *)
Definition anonymous_trace : list event :=
  [Click RunScraperNow; TriggerSettled (Js.Resolved scraped)].
Definition anonymous : World := Eval vm_compute in after None anonymous_trace.

(** The page has loaded and a date to scrape has been picked. *)
Definition dated : World :=
  Eval vm_compute in
    after (Some "t") [loaded; Change TargetDateInput "2025-01-15"].

(** A discovery is pending and nothing else. *)
Definition searching_trace : list event :=
  (ready_trace ++ [Click DiscoverCourts])%list.
Definition searching : World :=
  Eval vm_compute in after (Some "t") searching_trace.

(** The login form has been filled in and submitted. *)
Definition submitted_trace : list LoginPage.event :=
  [LoginPage.ChangeUsername "admin"; LoginPage.ChangePassword "admin";
   LoginPage.Submit].
Definition submitted : LoginPage.World :=
  Eval vm_compute in
    match LoginPage.run (LoginPage.mount []) submitted_trace with
    | Some w => w
    | None => LoginPage.mount []
    end.

End Sample.

(** * Properties *)

(** ** The declared shapes *)

(** C7: the data shapes the dashboard consumes match the data model field
    for field: the status snapshot has exactly status, last_run, last_status,
    total_records, last_extraction_count; a run-log row has exactly id,
    status, records_extracted, error_message, run_date, created_at; the
    discovery response has exactly date, total_courts_checked,
    courts_with_data and courts, whose elements are courts carrying
    court_number, court_name, judge, url, has_data. *)
Theorem interfaces_match_data_model :
  Decl.members Decl.ScraperStatus = DataModel.RunStatusSnapshot
  /\ Decl.members Decl.ScraperLog = DataModel.RunLog
  /\ Decl.members Decl.CourtDiscoveryResponse = DataModel.DiscoverySummary
  /\ Decl.element_interface Decl.CourtDiscoveryResponse "courts" = Some "Court"
  /\ option_map Decl.members (Decl.resolve "Court")
     = Some DataModel.CourtSummary.
Proof. repeat split. Qed.

(** ** The admin page *)

Section AdminPageFacts.
Import AdminPage.

(** *** What is rendered *)

Lemma control_eqb_eq (a b : control) : control_eqb a b = true -> a = b.
Proof.
  destruct a, b; simpl; try discriminate; try reflexivity.
  intros H. apply String.eqb_eq in H. now subst.
Qed.

Lemma operable_widget (c : control) (s : State) :
  operable c s = true <-> In (Widget c false) (render s).
Proof.
  unfold operable. rewrite existsb_exists. split.
  - intros [[c' d] [Hin H]]. simpl in H. apply andb_prop in H as [H1 H2].
    apply control_eqb_eq in H1. subst.
    destruct d; [discriminate | assumption].
  - intros Hin. exists (Widget c false). split; [assumption|]. simpl.
    rewrite andb_true_r. destruct c; simpl; try reflexivity.
    apply String.eqb_refl.
Qed.

(** Every widget the page renders. *)
Lemma render_inv (s : State) (x : widget) :
  In x (render s) ->
  loading s = false /\
  (x = Widget TargetDateInput false
   \/ x = Widget RunScraperNow (triggering s)
   \/ (x = Widget Stop false /\ triggering s = true)
   \/ x = Widget TriggerScraperManually (triggering s)
   \/ x = Widget DiscoveryDateInput false
   \/ x = Widget DiscoverCourts (discovering s || (discoveryDate s =? ""))
   \/ (discoveredCourts s <> [] /\
       (x = Widget SelectAll false \/ x = Widget DeselectAll false
        \/ x = Widget AllCourtsCheckbox false
        \/ (exists court,
               In court (discoveredCourts s)
               /\ x = Widget (CourtCheckbox (Court.court_number court)) false)
        \/ x = Widget FetchSelected
                 (fetchingCourts s
                  || (length (selectedCourts s) =? 0)%nat)))).
Proof.
  unfold render. destruct (loading s); [intros [] |]. intros H.
  split; [reflexivity|].
  simpl in H. destruct H as [<-|[<-|H]]; [tauto | tauto |].
  apply in_app_or in H. destruct H as [H|H].
  { destruct (triggering s); simpl in H; [|contradiction].
    destruct H as [<-|[]]. tauto. }
  simpl in H. destruct H as [<-|[<-|[<-|H]]]; [tauto | tauto | tauto |].
  destruct (discoveredCourts s) as [|c0 cs] eqn:E; simpl in H; [contradiction|].
  do 6 right. split; [discriminate|].
  destruct H as [<-|[<-|[<-|H]]]; [tauto | tauto | tauto |].
  destruct H as [<-|H].
  { right; right; right; left. exists c0. split; [now left | reflexivity]. }
  apply in_app_or in H. destruct H as [H|H].
  - apply in_map_iff in H. destruct H as [court [<- Hin]].
    right; right; right; left. exists court.
    split; [now right | reflexivity].
  - destruct H as [<-|[]]. tauto.
Qed.

(** Case analysis on a rendered widget [x] whose control is known. *)
Ltac rendered Hin :=
  apply render_inv in Hin; destruct Hin as [_ Hin];
  destruct Hin
    as [->|[->|[[-> ?]|[->|[->|[->|[_ [->|[->|[->|[[? [_ ->]]| ->]]]]]]]]]]].

(** C1, as amended: each control that starts a run is disabled whenever the
    flag of its own run kind is set (the two trigger buttons by triggering,
    Discover Courts by discovering, Fetch Data from Selected Courts by
    fetchingCourts), so a second run of the same kind cannot be started
    while one is pending. *)
Theorem run_control_disabled_by_own_flag (w : World) (c : control) :
  starts_run c = true -> own_flag c (ui w) = true ->
  (forall x, In x (render (ui w)) -> ctl x = c -> disabled x = true)
  /\ step w (Click c) = None.
Proof.
  intros Hs Hf.
  assert (Hall : forall x, In x (render (ui w)) -> ctl x = c ->
                           disabled x = true).
  { intros x Hin Hc. rendered Hin; simpl in Hc; subst c; simpl in *;
      try discriminate; try assumption; now rewrite Hf. }
  split; [exact Hall|].
  unfold step, handle. destruct (operable c (ui w)) eqn:Hop; [|reflexivity].
  apply operable_widget in Hop. apply Hall in Hop; [discriminate | reflexivity].
Qed.

Lemma run_control_disabled_by_own_flag_witness :
  starts_run RunScraperNow = true
  /\ own_flag RunScraperNow (ui Sample.busy) = true
  /\ (forall x, In x (render (ui Sample.busy)) -> ctl x = RunScraperNow ->
                disabled x = true)
  /\ step Sample.busy (Click RunScraperNow) = None.
Proof.
  split; [reflexivity|]. split; [reflexivity|].
  apply (run_control_disabled_by_own_flag Sample.busy RunScraperNow);
    reflexivity.
Defined.

(** C1 fails as stated: in the session [Sample.busy_trace] the scraper run
    is pending (triggering is set), yet Discover Courts, which starts a run,
    is rendered enabled, and clicking it sends the discovery request while
    the first run is still pending. *)
Lemma discover_enabled_while_scraper_runs :
  run (mount (Some "t")) Sample.busy_trace = Some Sample.busy
  /\ triggering (ui Sample.busy) = true
  /\ run_active (ui Sample.busy) = true
  /\ starts_run DiscoverCourts = true
  /\ In (Widget DiscoverCourts false) (render (ui Sample.busy))
  /\ exists w',
       step Sample.busy (Click DiscoverCourts) = Some w'
       /\ triggering (ui w') = true /\ discovering (ui w') = true
       /\ sent (browser w')
          = (sent (browser Sample.busy) ++ [discover_request Sample.busy])%list.
Proof.
  split; [reflexivity|]. split; [reflexivity|]. split; [reflexivity|].
  split; [reflexivity|]. split; [simpl; tauto|].
  eexists. split; [reflexivity|]. repeat split.
Qed.

(** *** The discovery request *)

Lemma pieces_cons (sep : ascii) (a b : string) :
  Url.free_of sep a = true ->
  Url.pieces sep (a ++ String sep b) = a :: Url.pieces sep b.
Proof.
  induction a as [|c a IH]; simpl; intros H.
  - now rewrite Ascii.eqb_refl.
  - apply andb_prop in H as [Hc Ha]. apply negb_true_iff in Hc.
    rewrite Hc, (IH Ha). reflexivity.
Qed.

Lemma date_free_of_amp (d : string) :
  date_input_value d = true -> Url.free_of "&" d = true.
Proof.
  induction d as [|c d IH]; simpl; [reflexivity|]. intros H.
  apply andb_prop in H as [Hc Hd]. rewrite (IH Hd), andb_true_r.
  unfold date_char in Hc. apply negb_true_iff. apply Ascii.eqb_neq.
  intros ->. simpl in Hc. discriminate.
Qed.

Lemma discover_params (s : State) :
  date_input_value (discoveryDate s) = true ->
  Url.params (discover_url s)
  = [("target_date", discoveryDate s); ("court_start", "1");
     ("court_end", "60")].
Proof.
  intros Hd. unfold Url.params, discover_url.
  change (Url.query (discover_path ++ "?target_date=" ++ discoveryDate s
                                   ++ "&court_start=1&court_end=60"))
    with (("target_date=" ++ discoveryDate s)
            ++ String "&" "court_start=1&court_end=60").
  rewrite pieces_cons by (simpl; now apply date_free_of_amp).
  reflexivity.
Qed.

(** C2: every discovery run started from the dashboard checks the court
    range 1 to 60: for every chosen discovery date the request sent to the
    discover-courts endpoint carries exactly target_date equal to that date,
    court_start=1 and court_end=60, so that the discovery run behind the
    endpoint checks exactly 60 court identifiers. *)
Theorem discovery_request_covers_1_to_60 (w : World) (d : string) :
  discoveryDate (ui w) = d -> d <> "" -> date_input_value d = true ->
  let r := discover_request w in
  sent (browser (discoverCourts w)) = (sent (browser w) ++ [r])%list
  /\ Http.meth r = Http.GET
  /\ Http.payload r = Http.NoBody
  /\ Url.path (Http.url r) = "/api/proxy/api/scraper/discover-courts"
  /\ Url.params (Http.url r)
     = [("target_date", d); ("court_start", "1"); ("court_end", "60")]
  /\ forall (CauseDocument : Type)
            (has_entries : CauseDocument -> nat -> bool)
            (summary : CauseDocument -> nat -> Court.t) (doc : CauseDocument),
       Backend.discover_courts CauseDocument has_entries summary doc
                               (Url.params (Http.url r))
       = Some (Backend.discover CauseDocument has_entries summary doc d 1 60)
       /\ Backend.court_range 1 60 = seq 1 60
       /\ CourtDiscoveryResponse.total_courts_checked
            (Backend.discover CauseDocument has_entries summary doc d 1 60)
          = 60%Z.
Proof.
  intros Hd Hne Hv r. subst r.
  assert (Hp : Url.params (Http.url (discover_request w))
               = [("target_date", d); ("court_start", "1");
                  ("court_end", "60")]).
  { simpl. rewrite discover_params by now rewrite Hd. now rewrite Hd. }
  repeat split; try reflexivity.
  - unfold discoverCourts. apply String.eqb_neq in Hne. rewrite Hd, Hne.
    reflexivity.
  - exact Hp.
  - rewrite Hp. reflexivity.
Qed.

Lemma discovery_request_covers_1_to_60_witness :
  let r := discover_request Sample.ready in
  sent (browser (discoverCourts Sample.ready))
  = (sent (browser Sample.ready) ++ [r])%list
  /\ Url.params (Http.url r)
     = [("target_date", "2025-01-15"); ("court_start", "1");
        ("court_end", "60")]
  /\ CourtDiscoveryResponse.total_courts_checked
       (Backend.discover unit (fun _ n => (n =? 3)%nat)
                         (fun _ _ => Sample.court3) tt "2025-01-15" 1 60)
     = 60%Z.
Proof.
  destruct (discovery_request_covers_1_to_60
              Sample.ready "2025-01-15" eq_refl
              ltac:(discriminate) eq_refl)
    as (Hsent & _ & _ & _ & Hparams & Hrun).
  split; [exact Hsent|]. split; [exact Hparams|].
  exact (proj2 (proj2 (Hrun unit (fun _ n => (n =? 3)%nat)
                            (fun _ _ => Sample.court3) tt))).
Defined.

(** C6: a discovery trigger with a missing date is rejected on the spot and
    creates no run state: when the discovery date is empty, [discoverCourts]
    only sets an error message, sends no request and does not touch the
    discovering flag; in that state the Discover Courts button is disabled. *)
Theorem discoverCourts_rejects_missing_date (w : World) :
  discoveryDate (ui w) = "" ->
  discoverCourts w
  = mkWorld (setError (Js.Str "Please select a date for court discovery")
                      (ui w))
            (browser w)
  /\ sent (browser (discoverCourts w)) = sent (browser w)
  /\ discovering (ui (discoverCourts w)) = discovering (ui w)
  /\ (forall x, In x (render (ui w)) -> ctl x = DiscoverCourts ->
                disabled x = true)
  /\ step w (Click DiscoverCourts) = None.
Proof.
  intros Hd.
  assert (Hall : forall x, In x (render (ui w)) -> ctl x = DiscoverCourts ->
                           disabled x = true).
  { intros x Hin Hc. rendered Hin; simpl in Hc; try discriminate.
    simpl. rewrite Hd. apply orb_true_r. }
  unfold discoverCourts. rewrite Hd. simpl. repeat split; try exact Hall.
  unfold step, handle.
  destruct (operable DiscoverCourts (ui w)) eqn:Hop; [|reflexivity].
  apply operable_widget in Hop. apply Hall in Hop; [discriminate | reflexivity].
Qed.

Lemma discoverCourts_rejects_missing_date_witness :
  discoveryDate (ui Sample.idle) = ""
  /\ sent (browser (discoverCourts Sample.idle)) = sent (browser Sample.idle)
  /\ discovering (ui (discoverCourts Sample.idle)) = false
  /\ In (Widget DiscoverCourts true) (render (ui Sample.idle))
  /\ step Sample.idle (Click DiscoverCourts) = None.
Proof.
  destruct (discoverCourts_rejects_missing_date Sample.idle eq_refl)
    as (_ & Hsent & Hflag & _ & Hstep).
  split; [reflexivity|]. split; [exact Hsent|]. split; [exact Hflag|].
  split; [simpl; tauto | exact Hstep].
Defined.

(** *** The fetch request and its summary *)

(** C3: a fetch run started with a non-empty selection sends a request
    whose body is exactly the pair of target_date, the discovery date, and
    court_numbers, the selected court numbers; on an ok response the summary
    shown to the operator is made of the fields total_cases_saved and
    courts_processed of the response; with an empty selection no request is
    sent at all. *)
Theorem fetchSelectedCourts_request_and_summary
        (w : World) (response : Http.response Js.value)
        (data saved processed : Js.value) :
  Http.ok response = true ->
  Http.json response = Js.Resolved data ->
  Js.get data "total_cases_saved" = Js.Resolved saved ->
  Js.get data "courts_processed" = Js.Resolved processed ->
  (selectedCourts (ui w) <> [] ->
     sent (browser (fetchSelectedCourts w))
     = (sent (browser w)
          ++ [Http.Request
                Http.POST "/api/proxy/api/scraper/fetch-court-data"
                [Http.bearer (token (browser w));
                 ("Content-Type", "application/json")]
                (Http.JsonBody
                   (Js.Obj
                      [ ("target_date", Js.Str (discoveryDate (ui w)));
                        ("court_numbers",
                         Js.Arr (map Js.Str (selectedCourts (ui w)))) ]))])%list
     /\ message (ui (fetchSelectedCourts_settled (Js.Resolved response)
                                                 (fetchSelectedCourts w)))
        = "Successfully saved " ++ Js.to_string saved
          ++ " cases from " ++ Js.to_string processed ++ " courts")
  /\ (selectedCourts (ui w) = [] ->
        browser (fetchSelectedCourts w) = browser w
        /\ fetchingCourts (ui (fetchSelectedCourts w)) = fetchingCourts (ui w)).
Proof.
  intros Hok Hjson Hs Hp. split.
  - intros Hne. unfold fetchSelectedCourts.
    destruct (selectedCourts (ui w)) as [|c cs] eqn:E; [congruence|]. simpl.
    split.
    + unfold fetch_court_data_request, authorization. now rewrite E.
    + unfold fetchSelectedCourts_settled. rewrite Hjson, Hok, Hs, Hp.
      unfold fetchData. destruct (no_token _); reflexivity.
  - intros He. unfold fetchSelectedCourts. rewrite He. simpl.
    split; reflexivity.
Qed.

Lemma fetchSelectedCourts_request_and_summary_witness :
  Http.payload
    (last (sent (browser (fetchSelectedCourts Sample.chosen)))
          (stop_request Sample.chosen))
  = Http.JsonBody
      (Js.Obj [ ("target_date", Js.Str "2025-01-15");
                ("court_numbers", Js.Arr [Js.Str "3"; Js.Str "17"]) ])
  /\ message (ui (fetchSelectedCourts_settled
                    (Js.Resolved Sample.saved_ok)
                    (fetchSelectedCourts Sample.chosen)))
     = "Successfully saved 57 cases from 2 courts".
Proof.
  destruct (fetchSelectedCourts_request_and_summary
              Sample.chosen Sample.saved_ok Sample.saved
              (Js.Num 57) (Js.Num 2) eq_refl eq_refl eq_refl eq_refl)
    as [Hrun _].
  destruct (Hrun ltac:(discriminate)) as [Hsent Hmsg].
  split; [rewrite Hsent; reflexivity | exact Hmsg].
Defined.

(** *** Requests a step sends *)

Lemma commit_browser (before : State) (w : World) :
  sent (browser (commit before w)) = sent (browser w)
  /\ token (browser (commit before w)) = token (browser w).
Proof.
  unfold commit, progress_cleanup, progress_effect.
  destruct (same_deps before (ui w)); [tauto|].
  simpl. destruct (run_active (ui w)); simpl; tauto.
Qed.

Lemma trigger_path (s : State) :
  Url.path (trigger_url s) = "/api/proxy/api/scraper/trigger".
Proof.
  unfold trigger_url, Url.path. destruct (targetDate s =? ""); reflexivity.
Qed.

Lemma fetchData_sends (w : World) :
  exists rs, sent (browser (fetchData w)) = (sent (browser w) ++ rs)%list
             /\ harmless rs.
Proof.
  unfold fetchData. destruct (no_token w); simpl.
  - exists []. split; [now rewrite app_nil_r | intros r []].
  - exists [status_request w; logs_request w]. split.
    + now rewrite <- app_assoc.
    + intros r [<-|[<-|[]]]; discriminate.
Qed.

Ltac nothing_sent :=
  exists []; split; [simpl; now rewrite app_nil_r | intros ? []].

Ltac sent_by_fetchData :=
  simpl;
  match goal with
  | |- context [fetchData ?x] =>
      let rs := fresh "rs" in
      destruct (fetchData_sends x) as [rs [? ?]]; exists rs; split; assumption
  end.

Lemma triggerScraper_settled_sends r w :
  exists rs,
    sent (browser (triggerScraper_settled r w)) = (sent (browser w) ++ rs)%list
    /\ harmless rs.
Proof.
  unfold triggerScraper_settled, triggerScraper_catch.
  destruct r as [err|response]; [nothing_sent|].
  destruct (Http.json response) as [err|data]; [nothing_sent|].
  destruct (Http.ok response).
  - destruct (Js.get data "records_extracted") as [err|n]; [nothing_sent|].
    sent_by_fetchData.
  - destruct (Js.get data "message"); nothing_sent.
Qed.

Lemma fetchSelectedCourts_settled_sends r w :
  exists rs,
    sent (browser (fetchSelectedCourts_settled r w))
    = (sent (browser w) ++ rs)%list
    /\ harmless rs.
Proof.
  unfold fetchSelectedCourts_settled, fetchSelectedCourts_catch.
  destruct r as [err|response]; [nothing_sent|].
  destruct (Http.json response) as [err|data]; [nothing_sent|].
  destruct (Http.ok response).
  - destruct (Js.get data "total_cases_saved") as [err|n]; [nothing_sent|].
    destruct (Js.get data "courts_processed") as [err|m]; [nothing_sent|].
    sent_by_fetchData.
  - destruct (Js.get data "detail"); nothing_sent.
Qed.

Ltac sends_nothing :=
  exists []; split; [simpl; now rewrite app_nil_r | right; intros ? []].

Ltac sends_one r :=
  exists [r]; split; [reflexivity|]; right;
  let x := fresh in
  intros x [<-|[]]; simpl; rewrite ?trigger_path; discriminate.

(** The requests one event sends: the stop request on a click on Stop, and
    otherwise nothing that goes to the stop endpoint. *)
Lemma handle_sends (e : event) (w w' : World) :
  handle e w = Some w' ->
  exists rs,
    sent (browser w') = (sent (browser w) ++ rs)%list
    /\ ((e = Click Stop /\ rs = [stop_request w]) \/ harmless rs).
Proof.
  destruct e; simpl.
  - destruct (operable c (ui w)); [|discriminate]. intros [= <-].
    destruct c; simpl; try sends_nothing.
    + sends_one (trigger_request w).
    + exists [stop_request w]. split; [reflexivity|]. now left.
    + sends_one (trigger_request w).
    + unfold discoverCourts. destruct (discoveryDate (ui w) =? "").
      * sends_nothing.
      * sends_one (discover_request w).
    + unfold fetchSelectedCourts.
      destruct (length (selectedCourts (ui w)) =? 0)%nat.
      * sends_nothing.
      * sends_one (fetch_court_data_request w).
  - destruct (operable c (ui w) && date_input_value value); [|discriminate].
    destruct c; simpl; try discriminate; intros [= <-]; sends_nothing.
  - destruct (interval (browser w)); [|discriminate]. intros [= <-].
    sends_one (progress_request w).
  - destruct (0 <? polls (browser w))%nat; [|discriminate]. intros [= <-].
    exists []. split; [|right; intros ? []]. rewrite app_nil_r.
    unfold poll_settled. destruct r as [err|res]; [reflexivity|].
    destruct (Http.ok res); [|reflexivity].
    destruct (Http.json res) as [err|data]; [reflexivity|].
    destruct (Progress.logs data); reflexivity.
  - destruct (0 <? stops (browser w))%nat; [|discriminate]. intros [= <-].
    exists []. split; [|right; intros ? []]. rewrite app_nil_r.
    destruct r; reflexivity.
  - destruct (0 <? loads (browser w))%nat; [|discriminate]. intros [= <-].
    exists []. split; [|right; intros ? []]. rewrite app_nil_r.
    unfold fetchData_settled, fetchData_catch.
    destruct r as [err|[statusRes logsRes]]; [reflexivity|].
    destruct (Http.ok statusRes), (Http.json statusRes), (Http.ok logsRes),
      (Http.json logsRes); reflexivity.
  - destruct (triggering (ui w)); [|discriminate]. intros [= <-].
    destruct (triggerScraper_settled_sends r w) as [rs [E H]].
    exists rs. tauto.
  - destruct (discovering (ui w)); [|discriminate]. intros [= <-].
    exists []. split; [|right; intros ? []]. rewrite app_nil_r.
    unfold discoverCourts_settled, discoverCourts_catch.
    destruct r as [err|response]; [reflexivity|].
    destruct (Http.json response) as [err|data]; [reflexivity|].
    destruct (Http.ok response); [|reflexivity].
    destruct (0 <? length (CourtDiscoveryResponse.courts data))%nat;
      reflexivity.
  - destruct (fetchingCourts (ui w)); [|discriminate]. intros [= <-].
    destruct (fetchSelectedCourts_settled_sends r w) as [rs [E H]].
    exists rs. tauto.
Qed.

(** C5: the stop request carries nothing beyond the authorization header,
    only ever sets the stop state, and can be issued only while a run is
    active: [stopScraper] sends a POST to the stop endpoint with no query, no
    body and the bearer header alone; whatever the page does, any request it
    sends to the stop endpoint is that request, sent by a click on Stop, so
    no operation takes a stop back; and the Stop control is rendered, hence
    clickable, only when triggering is set. *)
Theorem stop_is_parameterless_and_set_only (w w' : World) (e : event) :
  step w e = Some w' ->
  (sent (browser (stopScraper w))
   = (sent (browser w)
        ++ [Http.Request Http.POST "/api/proxy/api/scraper/stop"
                         [Http.bearer (token (browser w))] Http.NoBody])%list
   /\ Url.params stop_url = [])
  /\ (exists rs,
        sent (browser w') = (sent (browser w) ++ rs)%list
        /\ forall r, In r rs -> Url.path (Http.url r) = stop_url ->
                     e = Click Stop /\ r = stop_request w)
  /\ (e = Click Stop -> triggering (ui w) = true)
  /\ (forall x, In x (render (ui w)) -> ctl x = Stop ->
                triggering (ui w) = true).
Proof.
  intros Hstep.
  assert (Hshown : forall x, In x (render (ui w)) -> ctl x = Stop ->
                             triggering (ui w) = true).
  { intros x Hin Hc. rendered Hin; simpl in Hc; try discriminate.
    assumption. }
  split; [split; reflexivity|]. split; [|split; [|exact Hshown]].
  - unfold step in Hstep.
    destruct (handle e w) as [w1|] eqn:Hh; [|discriminate].
    injection Hstep as <-. destruct (handle_sends _ _ _ Hh) as [rs [E H]].
    exists rs. split.
    + rewrite (proj1 (commit_browser _ _)). exact E.
    + intros r Hin Hp. destruct H as [[-> ->]|H].
      * destruct Hin as [<-|[]]. split; reflexivity.
      * exfalso. exact (H r Hin Hp).
  - intros ->. unfold step, handle in Hstep.
    destruct (operable Stop (ui w)) eqn:Hop; [|discriminate].
    apply operable_widget in Hop. exact (Hshown _ Hop eq_refl).
Qed.

Lemma stop_is_parameterless_and_set_only_witness :
  step Sample.busy (Click Stop) = Some (stopScraper Sample.busy)
  /\ sent (browser (stopScraper Sample.busy))
     = (sent (browser Sample.busy)
          ++ [Http.Request Http.POST "/api/proxy/api/scraper/stop"
                           [("Authorization", "Bearer t")] Http.NoBody])%list
  /\ triggering (ui Sample.busy) = true.
Proof.
  assert (Hstep : step Sample.busy (Click Stop)
                  = Some (stopScraper Sample.busy)) by reflexivity.
  destruct (stop_is_parameterless_and_set_only _ _ _ Hstep)
    as ((Hsent & _) & _ & Hclick & _).
  split; [exact Hstep|]. split; [exact Hsent | exact (Hclick eq_refl)].
Defined.

(** *** Selecting courts *)

Lemma includes_In (prev : list string) (c : string) :
  includes prev c = true <-> In c prev.
Proof.
  unfold includes. rewrite existsb_exists. split.
  - intros [x [Hx Heq]]. apply String.eqb_eq in Heq. now subst.
  - intros Hc. exists c. split; [assumption | apply String.eqb_refl].
Qed.

Lemma includes_false (prev : list string) (c : string) :
  includes prev c = false <-> ~ In c prev.
Proof.
  rewrite <- includes_In. destruct (includes prev c); intuition congruence.
Qed.

Lemma In_without (prev : list string) (c x : string) :
  In x (filter (fun y => negb (y =? c)) prev) <-> In x prev /\ x <> c.
Proof.
  rewrite filter_In, negb_true_iff, String.eqb_neq. reflexivity.
Qed.

Lemma without_absent (prev : list string) (c : string) :
  ~ In c prev -> filter (fun y => negb (y =? c)) prev = prev.
Proof.
  induction prev as [|x prev IH]; simpl; intros Hc; [reflexivity|].
  destruct (String.eqb_spec x c) as [->|Hne]; simpl.
  - exfalso. apply Hc. now left.
  - f_equal. apply IH. intros Hin. apply Hc. now right.
Qed.

Lemma without_present (prev : list string) (c : string) :
  NoDup prev -> In c prev ->
  Permutation (filter (fun y => negb (y =? c)) prev ++ [c]) prev.
Proof.
  induction 1 as [|x prev Hx Hnd IH]; simpl; intros Hc; [contradiction|].
  destruct (String.eqb_spec x c) as [->|Hne]; simpl.
  - rewrite without_absent by assumption.
    symmetry. apply Permutation_cons_append.
  - constructor. apply IH. destruct Hc; [contradiction | assumption].
Qed.

Lemma toggle_selected (prev : list string) (c : string) :
  In c prev -> toggle c prev = filter (fun y => negb (y =? c)) prev.
Proof. intros Hc. unfold toggle. now rewrite (proj2 (includes_In prev c) Hc). Qed.

Lemma toggle_unselected (prev : list string) (c : string) :
  ~ In c prev -> toggle c prev = (prev ++ [c])%list.
Proof. intros Hc. unfold toggle. now rewrite (proj2 (includes_false prev c) Hc). Qed.

Lemma toggle_In (prev : list string) (c x : string) :
  In x (toggle c prev) -> x = c \/ In x prev.
Proof.
  unfold toggle. destruct (includes prev c).
  - rewrite In_without. tauto.
  - rewrite in_app_iff. simpl. intuition.
Qed.

(** C9: on a duplicate-free selection, one [toggleCourtSelection] of a
    court number removes it if it is selected and appends it if it is not,
    never introduces a duplicate, and applied twice gives back the same
    selected set, up to the order of the list. *)
Theorem toggleCourtSelection_involution (prev : list string) (c : string) :
  NoDup prev ->
  (In c prev ->
     toggle c prev = filter (fun y => negb (y =? c)) prev
     /\ forall x, In x (toggle c prev) <-> In x prev /\ x <> c)
  /\ (~ In c prev -> toggle c prev = (prev ++ [c])%list)
  /\ NoDup (toggle c prev)
  /\ Permutation (toggle c (toggle c prev)) prev
  /\ forall s, selectedCourts s = prev ->
       selectedCourts (toggleCourtSelection c s) = toggle c prev.
Proof.
  intros Hnd. repeat split.
  - now apply toggle_selected.
  - rewrite toggle_selected, In_without in * by assumption. tauto.
  - rewrite toggle_selected, In_without in * by assumption. tauto.
  - rewrite toggle_selected, In_without by assumption. tauto.
  - apply toggle_unselected.
  - destruct (in_dec string_dec c prev) as [Hc|Hc].
    + rewrite toggle_selected by assumption. now apply NoDup_filter.
    + rewrite toggle_unselected by assumption.
      apply NoDup_app; [assumption | repeat constructor; simpl; tauto |].
      intros a Ha [<-|[]]. contradiction.
  - destruct (in_dec string_dec c prev) as [Hc|Hc].
    + rewrite (toggle_selected prev) by assumption.
      rewrite toggle_unselected by (rewrite In_without; tauto).
      now apply without_present.
    + rewrite (toggle_unselected prev) by assumption.
      rewrite toggle_selected by (apply in_or_app; right; now left).
      rewrite filter_app, without_absent by assumption. simpl.
      rewrite String.eqb_refl. simpl. now rewrite app_nil_r.
  - intros s <-. reflexivity.
Qed.

Lemma toggleCourtSelection_involution_witness :
  NoDup ["3"; "17"]
  /\ toggle "3" ["3"; "17"] = ["17"]
  /\ toggle "40" ["3"; "17"] = ["3"; "17"; "40"]
  /\ Permutation (toggle "3" (toggle "3" ["3"; "17"])) ["3"; "17"].
Proof.
  assert (Hnd : NoDup ["3"; "17"]).
  { repeat constructor; simpl; intuition discriminate. }
  destruct (toggleCourtSelection_involution ["3"; "17"] "3" Hnd)
    as (_ & _ & _ & Hperm & _).
  split; [exact Hnd|]. split; [reflexivity|]. split; [reflexivity|].
  exact Hperm.
Defined.

(** *** The selection stays within the discovery *)

Lemma selection_inv_cells (s s' : State) :
  selection_cells s' = selection_cells s -> selection_inv s -> selection_inv s'.
Proof.
  unfold selection_cells, selection_inv, selection_within.
  intros [= E1 E2 E3]. rewrite E1, E2, E3. tauto.
Qed.

Lemma commit_cells (before : State) (w : World) :
  selection_cells (ui (commit before w)) = selection_cells (ui w).
Proof.
  unfold commit, progress_cleanup, progress_effect.
  destruct (same_deps before (ui w)); [reflexivity|].
  simpl. destruct (run_active (ui w)); reflexivity.
Qed.

Lemma fetchData_cells (w : World) :
  selection_cells (ui (fetchData w)) = selection_cells (ui w).
Proof. unfold fetchData. destruct (no_token w); reflexivity. Qed.

Lemma fetchData_settled_cells r (w : World) :
  selection_cells (ui (fetchData_settled r w)) = selection_cells (ui w).
Proof.
  unfold fetchData_settled, fetchData_catch.
  destruct r as [err|[statusRes logsRes]]; [reflexivity|].
  destruct (Http.ok statusRes), (Http.json statusRes), (Http.ok logsRes),
    (Http.json logsRes); reflexivity.
Qed.

Lemma poll_settled_cells r (w : World) :
  selection_cells (ui (poll_settled r w)) = selection_cells (ui w).
Proof.
  unfold poll_settled. destruct r as [err|res]; [reflexivity|].
  destruct (Http.ok res); [|reflexivity].
  destruct (Http.json res) as [err|data]; [reflexivity|].
  destruct (Progress.logs data); reflexivity.
Qed.

Lemma triggerScraper_settled_cells r (w : World) :
  selection_cells (ui (triggerScraper_settled r w)) = selection_cells (ui w).
Proof.
  unfold triggerScraper_settled, triggerScraper_catch.
  destruct r as [err|response]; [reflexivity|].
  destruct (Http.json response) as [err|data]; [reflexivity|].
  destruct (Http.ok response).
  - destruct (Js.get data "records_extracted"); [reflexivity|].
    unfold fetchData. destruct (no_token _); reflexivity.
  - destruct (Js.get data "message"); reflexivity.
Qed.

Lemma fetchSelectedCourts_cells (w : World) :
  selection_cells (ui (fetchSelectedCourts w)) = selection_cells (ui w).
Proof.
  unfold fetchSelectedCourts.
  destruct (length (selectedCourts (ui w)) =? 0)%nat; reflexivity.
Qed.

Lemma fetchSelectedCourts_settled_cells r (w : World) :
  selection_cells (ui (fetchSelectedCourts_settled r w)) = selection_cells (ui w).
Proof.
  unfold fetchSelectedCourts_settled, fetchSelectedCourts_catch.
  destruct r as [err|response]; [reflexivity|].
  destruct (Http.json response) as [err|data]; [reflexivity|].
  destruct (Http.ok response).
  - destruct (Js.get data "total_cases_saved"); [reflexivity|].
    destruct (Js.get data "courts_processed"); [reflexivity|].
    unfold fetchData. destruct (no_token _); reflexivity.
  - destruct (Js.get data "detail"); reflexivity.
Qed.

Lemma toggle_within (c : string) (s : State) :
  In c (map Court.court_number (discoveredCourts s)) ->
  selection_within s -> selection_within (toggleCourtSelection c s).
Proof.
  unfold selection_within, incl. simpl. intros Hc H x Hx.
  apply toggle_In in Hx. destruct Hx as [->|Hx]; auto.
Qed.

Lemma selectAll_within (s : State) : selection_within (selectAllCourts s).
Proof. unfold selection_within. simpl. apply incl_refl. Qed.

Lemma deselectAll_within (s : State) : selection_within (deselectAllCourts s).
Proof. unfold selection_within. simpl. intros x []. Qed.

Lemma toggleAll_within (s : State) : selection_within (toggleAll s).
Proof.
  unfold toggleAll. destruct (_ =? _)%nat;
    [apply deselectAll_within | apply selectAll_within].
Qed.

Lemma discoverCourts_clears (w : World) :
  discoveryDate (ui w) <> "" ->
  discovering (ui (discoverCourts w)) = true
  /\ discoveredCourts (ui (discoverCourts w)) = []
  /\ selectedCourts (ui (discoverCourts w)) = [].
Proof.
  intros H. apply String.eqb_neq in H. unfold discoverCourts. rewrite H.
  repeat split.
Qed.

Lemma discoverCourts_settled_selects (w : World) response data :
  Http.ok response = true -> Http.json response = Js.Resolved data ->
  CourtDiscoveryResponse.courts data <> [] ->
  discoveredCourts (ui (discoverCourts_settled (Js.Resolved response) w))
  = CourtDiscoveryResponse.courts data
  /\ selectedCourts (ui (discoverCourts_settled (Js.Resolved response) w))
     = map Court.court_number (CourtDiscoveryResponse.courts data).
Proof.
  intros Hok Hjson Hne. unfold discoverCourts_settled. rewrite Hjson, Hok.
  destruct (CourtDiscoveryResponse.courts data); [congruence|]. split; reflexivity.
Qed.

Lemma discoverCourts_settled_inv r (w : World) :
  discoveredCourts (ui w) = [] -> selectedCourts (ui w) = [] ->
  selection_inv (ui (discoverCourts_settled r w)).
Proof.
  intros Hd Hs. unfold selection_inv, selection_within.
  unfold discoverCourts_settled, discoverCourts_catch.
  destruct r as [err|response]; simpl.
  { rewrite Hd, Hs. split; [intros x []| discriminate]. }
  destruct (Http.json response) as [err|data]; simpl.
  { rewrite Hd, Hs. split; [intros x []| discriminate]. }
  destruct (Http.ok response); simpl.
  - destruct (CourtDiscoveryResponse.courts data) as [|c cs]; simpl.
    + rewrite Hs. split; [intros x []| discriminate].
    + split; [apply incl_refl | discriminate].
  - rewrite Hd, Hs. split; [intros x []| discriminate].
Qed.

Lemma handle_selection_inv (e : event) (w w' : World) :
  selection_inv (ui w) -> handle e w = Some w' -> selection_inv (ui w').
Proof.
  intros Hinv. destruct e; simpl.
  - destruct (operable c (ui w)) eqn:Hop; [|discriminate]. intros [= <-].
    apply operable_widget, render_inv in Hop. destruct Hop as [_ Hop].
    destruct c; simpl;
      try (eapply selection_inv_cells; [|exact Hinv]; reflexivity).
    + (* DiscoverCourts *)
      unfold discoverCourts. destruct (discoveryDate (ui w) =? "").
      * eapply selection_inv_cells; [|exact Hinv]; reflexivity.
      * split; [intros x []|]. simpl. tauto.
    + (* SelectAll *)
      destruct Hop as [H|[H|[[H _]|[H|[H|[H|[Hne _]]]]]]]; try discriminate.
      split; [apply selectAll_within|]. simpl. intros Hd.
      destruct Hinv as [_ Hinv]. apply Hinv in Hd. tauto.
    + (* DeselectAll *)
      destruct Hop as [H|[H|[[H _]|[H|[H|[H|[Hne _]]]]]]]; try discriminate.
      split; [apply deselectAll_within|]. simpl. intros Hd.
      destruct Hinv as [_ Hinv]. apply Hinv in Hd. tauto.
    + (* AllCourtsCheckbox *)
      destruct Hop as [H|[H|[[H _]|[H|[H|[H|[Hne _]]]]]]]; try discriminate.
      split; [apply toggleAll_within|].
      replace (discovering (toggleAll (ui w))) with (discovering (ui w))
        by (unfold toggleAll; destruct (_ =? _)%nat; reflexivity).
      intros Hd. destruct Hinv as [_ Hinv]. apply Hinv in Hd. tauto.
    + (* CourtCheckbox *)
      destruct Hop as [H|[H|[[H _]|[H|[H|[H|[Hne H]]]]]]]; try discriminate.
      destruct H as [H|[H|[H|[[court [Hin H]]|H]]]]; try discriminate.
      injection H as ->. destruct Hinv as [Hw Hinv]. split.
      * apply toggle_within; [|assumption]. now apply in_map.
      * simpl. intros Hd. apply Hinv in Hd. tauto.
    + (* FetchSelected *)
      eapply selection_inv_cells; [|exact Hinv]. apply fetchSelectedCourts_cells.
  - destruct (operable c (ui w) && date_input_value value); [|discriminate].
    destruct c; simpl; try discriminate; intros [= <-];
      (eapply selection_inv_cells; [|exact Hinv]; reflexivity).
  - destruct (interval (browser w)); [|discriminate]. intros [= <-].
    eapply selection_inv_cells; [|exact Hinv]; reflexivity.
  - destruct (0 <? polls (browser w))%nat; [|discriminate]. intros [= <-].
    eapply selection_inv_cells; [|exact Hinv]. apply poll_settled_cells.
  - destruct (0 <? stops (browser w))%nat; [|discriminate]. intros [= <-].
    eapply selection_inv_cells; [|exact Hinv]. destruct r; reflexivity.
  - destruct (0 <? loads (browser w))%nat; [|discriminate]. intros [= <-].
    eapply selection_inv_cells; [|exact Hinv]. apply fetchData_settled_cells.
  - destruct (triggering (ui w)); [|discriminate]. intros [= <-].
    eapply selection_inv_cells; [|exact Hinv]. apply triggerScraper_settled_cells.
  - destruct (discovering (ui w)) eqn:Hd; [|discriminate]. intros [= <-].
    destruct Hinv as [_ Hinv]. destruct (Hinv Hd) as [H1 H2].
    now apply discoverCourts_settled_inv.
  - destruct (fetchingCourts (ui w)); [|discriminate]. intros [= <-].
    eapply selection_inv_cells; [|exact Hinv]. apply fetchSelectedCourts_settled_cells.
Qed.

Lemma step_selection_inv (e : event) (w w' : World) :
  selection_inv (ui w) -> step w e = Some w' -> selection_inv (ui w').
Proof.
  intros Hinv. unfold step. destruct (handle e w) as [w1|] eqn:Hh; [|discriminate].
  intros [= <-]. eapply selection_inv_cells; [apply commit_cells|].
  eapply handle_selection_inv; eassumption.
Qed.

Lemma run_selection_inv (trace : list event) (w w' : World) :
  selection_inv (ui w) -> run w trace = Some w' -> selection_inv (ui w').
Proof.
  revert w. induction trace as [|e trace IH]; simpl; intros w Hinv.
  - now intros [= <-].
  - destruct (step w e) as [w1|] eqn:Hs; [|discriminate].
    apply IH. eapply step_selection_inv; eassumption.
Qed.

Lemma mount_selection_inv (tok : option string) : selection_inv (ui (mount tok)).
Proof.
  eapply selection_inv_cells with (s := initial).
  - unfold mount. rewrite fetchData_cells. reflexivity.
  - split; [intros x [] | discriminate].
Qed.

Lemma reachable_selection_inv (w : World) : reachable w -> selection_inv (ui w).
Proof.
  intros [tok [trace Hrun]]. eapply run_selection_inv; [|exact Hrun].
  apply mount_selection_inv.
Qed.

(** C8: after a successful discovery whose response has a non-empty
    courts list all discovered courts are selected, in response order; both
    lists are cleared before each discovery attempt; and every selection
    operation the page offers (toggling a discovered court, select-all,
    deselect-all) keeps the selected court numbers among the court numbers of
    the latest discovery, as does every other step of the page. *)
Theorem selection_within_latest_discovery (w : World) :
  reachable w ->
  selection_within (ui w)
  /\ (discoveryDate (ui w) <> "" ->
        discoveredCourts (ui (discoverCourts w)) = []
        /\ selectedCourts (ui (discoverCourts w)) = [])
  /\ (forall response data,
        Http.ok response = true -> Http.json response = Js.Resolved data ->
        CourtDiscoveryResponse.courts data <> [] ->
        discoveredCourts (ui (discoverCourts_settled (Js.Resolved response) w))
        = CourtDiscoveryResponse.courts data
        /\ selectedCourts (ui (discoverCourts_settled (Js.Resolved response) w))
           = map Court.court_number (CourtDiscoveryResponse.courts data))
  /\ (forall c, In c (map Court.court_number (discoveredCourts (ui w))) ->
                selection_within (toggleCourtSelection c (ui w)))
  /\ selection_within (selectAllCourts (ui w))
  /\ selection_within (deselectAllCourts (ui w))
  /\ (forall e w', step w e = Some w' -> selection_within (ui w')).
Proof.
  intros Hr. pose proof (reachable_selection_inv w Hr) as Hinv.
  split; [apply Hinv|]. split.
  { intros H. apply discoverCourts_clears in H. tauto. }
  split; [intros; now apply discoverCourts_settled_selects|].
  split; [intros c Hc; apply toggle_within; [assumption | apply Hinv]|].
  split; [apply selectAll_within|]. split; [apply deselectAll_within|].
  intros e w' Hs. eapply step_selection_inv; eassumption.
Qed.

Lemma selection_within_latest_discovery_witness :
  reachable Sample.chosen
  /\ selectedCourts (ui Sample.chosen) = ["3"; "17"]
  /\ selection_within (ui Sample.chosen)
  /\ selection_within (toggleCourtSelection "17" (ui Sample.chosen)).
Proof.
  assert (Hr : reachable Sample.chosen).
  { exists (Some "t"), Sample.chosen_trace. reflexivity. }
  destruct (selection_within_latest_discovery Sample.chosen Hr)
    as (Hin & _ & _ & Htoggle & _).
  split; [exact Hr|]. split; [reflexivity|]. split; [exact Hin|].
  apply Htoggle. simpl. tauto.
Defined.

(** *** The live log *)

Lemma same_deps_flags (a b : State) :
  same_deps a b = true <-> flags a = flags b.
Proof.
  unfold same_deps, flags.
  destruct (triggering a), (triggering b), (discovering a), (discovering b),
    (fetchingCourts a), (fetchingCourts b); simpl; split; congruence.
Qed.

Lemma flags_run_active (a b : State) :
  flags a = flags b -> run_active a = run_active b.
Proof. unfold flags, run_active. intros [= -> -> ->]. reflexivity. Qed.

Lemma flags_starts (a b : State) : flags a = flags b -> starts a b = false.
Proof.
  unfold flags, starts. intros [= -> -> ->].
  destruct (triggering b), (discovering b), (fetchingCourts b); reflexivity.
Qed.

Lemma starts_run_active (a b : State) : starts a b = true -> run_active b = true.
Proof.
  unfold starts, run_active.
  destruct (triggering a), (triggering b), (discovering a), (discovering b),
    (fetchingCourts a), (fetchingCourts b); simpl; congruence.
Qed.

Lemma commit_flags (before : State) (w : World) :
  flags (ui (commit before w)) = flags (ui w).
Proof.
  unfold commit, progress_cleanup, progress_effect.
  destruct (same_deps before (ui w)); [reflexivity|].
  simpl. destruct (run_active (ui w)); reflexivity.
Qed.

Lemma commit_same (before : State) (w : World) :
  flags before = flags (ui w) -> commit before w = w.
Proof. intros H. apply same_deps_flags in H. unfold commit. now rewrite H. Qed.

Lemma commit_changed (before : State) (w : World) :
  flags before <> flags (ui w) ->
  (run_active (ui w) = true ->
     liveLogs (ui (commit before w)) = []
     /\ interval (browser (commit before w)) = Some poll_delay)
  /\ (run_active (ui w) = false ->
        liveLogs (ui (commit before w)) = liveLogs (ui w)
        /\ interval (browser (commit before w)) = None).
Proof.
  intros H. unfold commit. destruct (same_deps before (ui w)) eqn:E.
  { apply same_deps_flags in E. contradiction. }
  unfold progress_cleanup, progress_effect. simpl.
  split; intros ->; split; reflexivity.
Qed.

(** What a handler leaves alone: the interval always, the flags when it
    settles a poll, the live log otherwise. *)
Lemma handle_frame (e : event) (w w' : World) :
  handle e w = Some w' ->
  interval (browser w') = interval (browser w)
  /\ (if is_poll_settled e then flags (ui w') = flags (ui w)
      else liveLogs (ui w') = liveLogs (ui w)).
Proof.
  destruct e; simpl.
  - destruct (operable c (ui w)); [|discriminate]. intros [= <-].
    destruct c; simpl; try (split; reflexivity).
    + unfold discoverCourts. destruct (_ =? _); split; reflexivity.
    + unfold toggleAll. destruct (_ =? _)%nat; split; reflexivity.
    + unfold fetchSelectedCourts. destruct (_ =? _)%nat; split; reflexivity.
  - destruct (operable c (ui w) && date_input_value value); [|discriminate].
    destruct c; simpl; try discriminate; intros [= <-]; split; reflexivity.
  - destruct (interval (browser w)) eqn:E; [|discriminate]. intros [= <-].
    split; [simpl; now rewrite E | reflexivity].
  - destruct (0 <? polls (browser w))%nat; [|discriminate]. intros [= <-].
    unfold poll_settled. destruct r as [err|res]; [split; reflexivity|].
    destruct (Http.ok res); [|split; reflexivity].
    destruct (Http.json res) as [err|data]; [split; reflexivity|].
    destruct (Progress.logs data); split; reflexivity.
  - destruct (0 <? stops (browser w))%nat; [|discriminate]. intros [= <-].
    destruct r; split; reflexivity.
  - destruct (0 <? loads (browser w))%nat; [|discriminate]. intros [= <-].
    unfold fetchData_settled, fetchData_catch.
    destruct r as [err|[statusRes logsRes]]; [split; reflexivity|].
    destruct (Http.ok statusRes), (Http.json statusRes), (Http.ok logsRes),
      (Http.json logsRes); split; reflexivity.
  - destruct (triggering (ui w)); [|discriminate]. intros [= <-].
    unfold triggerScraper_settled, triggerScraper_catch.
    destruct r as [err|response]; [split; reflexivity|].
    destruct (Http.json response) as [err|data]; [split; reflexivity|].
    destruct (Http.ok response).
    + destruct (Js.get data "records_extracted"); [split; reflexivity|].
      unfold fetchData. destruct (no_token _); split; reflexivity.
    + destruct (Js.get data "message"); split; reflexivity.
  - destruct (discovering (ui w)); [|discriminate]. intros [= <-].
    unfold discoverCourts_settled, discoverCourts_catch.
    destruct r as [err|response]; [split; reflexivity|].
    destruct (Http.json response) as [err|data]; [split; reflexivity|].
    destruct (Http.ok response); [|split; reflexivity].
    destruct (0 <? _)%nat; split; reflexivity.
  - destruct (fetchingCourts (ui w)); [|discriminate]. intros [= <-].
    unfold fetchSelectedCourts_settled, fetchSelectedCourts_catch.
    destruct r as [err|response]; [split; reflexivity|].
    destruct (Http.json response) as [err|data]; [split; reflexivity|].
    destruct (Http.ok response).
    + destruct (Js.get data "total_cases_saved"); [split; reflexivity|].
      destruct (Js.get data "courts_processed"); [split; reflexivity|].
      unfold fetchData. destruct (no_token _); split; reflexivity.
    + destruct (Js.get data "detail"); split; reflexivity.
Qed.

Lemma flags_dec (a b : State) : {flags a = flags b} + {flags a <> flags b}.
Proof.
  destruct (same_deps a b) eqn:E.
  - left. now apply same_deps_flags.
  - right. intros H. apply same_deps_flags in H. congruence.
Qed.

Lemma step_polling_inv (e : event) (w w' : World) :
  polling_inv w -> step w e = Some w' -> polling_inv w'.
Proof.
  unfold polling_inv, step. intros Hinv.
  destruct (handle e w) as [w1|] eqn:Hh; [|discriminate]. intros [= <-].
  apply handle_frame in Hh. destruct Hh as [Hi _].
  destruct (flags_dec (ui w) (ui w1)) as [E|E].
  - rewrite (commit_same _ _ E), Hi, Hinv.
    now rewrite (flags_run_active _ _ E).
  - rewrite (flags_run_active _ _ (commit_flags (ui w) w1)).
    destruct (commit_changed _ _ E) as [H1 H2].
    destruct (run_active (ui w1)); [apply H1 | apply H2]; reflexivity.
Qed.

Lemma mount_polling_inv (tok : option string) : polling_inv (mount tok).
Proof.
  unfold polling_inv, mount, fetchData. destruct (no_token _); reflexivity.
Qed.

Lemma reachable_polling_inv (w : World) : reachable w -> polling_inv w.
Proof.
  intros [tok [trace Hrun]]. pose proof (mount_polling_inv tok) as H.
  revert H Hrun. generalize (mount tok). induction trace as [|e trace IH]; simpl.
  - now intros w0 H [= <-].
  - intros w0 H. destruct (step w0 e) as [w1|] eqn:Hs; [|discriminate].
    apply IH. eapply step_polling_inv; eassumption.
Qed.

Lemma reachable_step (e : event) (w w' : World) :
  reachable w -> step w e = Some w' -> reachable w'.
Proof.
  intros [tok [trace Hrun]] Hs. exists tok, (trace ++ [e])%list.
  revert Hrun. generalize (mount tok). induction trace as [|e0 trace IH]; simpl.
  - intros w0 [= ->]. now rewrite Hs.
  - intros w0. destruct (step w0 e0); [apply IH | discriminate].
Qed.

Lemma commit_polls (before : State) (w : World) :
  polls (browser (commit before w)) = polls (browser w).
Proof.
  unfold commit, progress_cleanup, progress_effect.
  destruct (same_deps before (ui w)); [reflexivity|].
  simpl. destruct (run_active (ui w)); reflexivity.
Qed.

Lemma step_polls (e : event) (w w' : World) :
  step w e = Some w' ->
  polls (browser w') = polls_after e (polls (browser w)).
Proof.
  unfold step. destruct (handle e w) as [w1|] eqn:Hh; [|discriminate].
  intros [= <-]. rewrite commit_polls. revert Hh. destruct e; simpl.
  - destruct (operable c (ui w)); [|discriminate]. intros [= <-].
    destruct c; simpl; try reflexivity.
    + unfold discoverCourts. destruct (_ =? _); reflexivity.
    + unfold fetchSelectedCourts. destruct (_ =? _)%nat; reflexivity.
  - destruct (operable c (ui w) && date_input_value value); [|discriminate].
    destruct c; simpl; try discriminate; intros [= <-]; reflexivity.
  - destruct (interval (browser w)); [|discriminate]. now intros [= <-].
  - destruct (0 <? polls (browser w))%nat; [|discriminate]. intros [= <-].
    unfold poll_settled. destruct r as [err|res]; [reflexivity|].
    destruct (Http.ok res); [|reflexivity].
    destruct (Http.json res) as [err|data]; [reflexivity|].
    destruct (Progress.logs data); reflexivity.
  - destruct (0 <? stops (browser w))%nat; [|discriminate]. intros [= <-].
    destruct r; reflexivity.
  - destruct (0 <? loads (browser w))%nat; [|discriminate]. intros [= <-].
    unfold fetchData_settled, fetchData_catch.
    destruct r as [err|[statusRes logsRes]]; [reflexivity|].
    destruct (Http.ok statusRes), (Http.json statusRes), (Http.ok logsRes),
      (Http.json logsRes); reflexivity.
  - destruct (triggering (ui w)); [|discriminate]. intros [= <-].
    unfold triggerScraper_settled, triggerScraper_catch.
    destruct r as [err|response]; [reflexivity|].
    destruct (Http.json response) as [err|data]; [reflexivity|].
    destruct (Http.ok response).
    + destruct (Js.get data "records_extracted"); [reflexivity|].
      unfold fetchData. destruct (no_token _); reflexivity.
    + destruct (Js.get data "message"); reflexivity.
  - destruct (discovering (ui w)); [|discriminate]. intros [= <-].
    unfold discoverCourts_settled, discoverCourts_catch.
    destruct r as [err|response]; [reflexivity|].
    destruct (Http.json response) as [err|data]; [reflexivity|].
    destruct (Http.ok response); [|reflexivity].
    destruct (0 <? _)%nat; reflexivity.
  - destruct (fetchingCourts (ui w)); [|discriminate]. intros [= <-].
    unfold fetchSelectedCourts_settled, fetchSelectedCourts_catch.
    destruct r as [err|response]; [reflexivity|].
    destruct (Http.json response) as [err|data]; [reflexivity|].
    destruct (Http.ok response).
    + destruct (Js.get data "total_cases_saved"); [reflexivity|].
      destruct (Js.get data "courts_processed"); [reflexivity|].
      unfold fetchData. destruct (no_token _); reflexivity.
    + destruct (Js.get data "detail"); reflexivity.
Qed.

(** With no run active the interval is off and no poll can be issued. *)
Lemma idle_no_tick (w : World) :
  reachable w -> run_active (ui w) = false ->
  interval (browser w) = None /\ step w Tick = None.
Proof.
  intros Hr Ha. pose proof (reachable_polling_inv w Hr) as Hp.
  unfold polling_inv in Hp. rewrite Ha in Hp. split; [exact Hp|].
  unfold step. simpl. now rewrite Hp.
Qed.

(** A step between two states with no run active: either it answers an
    outstanding poll, or it changes neither the lines nor the number of
    outstanding polls. *)
Lemma idle_step (e : event) (w w' : World) :
  reachable w -> step w e = Some w' ->
  run_active (ui w') = false ->
  (liveLogs (ui w') = liveLogs (ui w)
   /\ (run_active (ui w) = false -> polls (browser w') = polls (browser w)))
  \/ (is_poll_settled e = true
      /\ run_active (ui w) = false
      /\ polls (browser w) = S (polls (browser w'))).
Proof.
  intros Hr Hs Ha'. pose proof (step_polls _ _ _ Hs) as Hpolls.
  assert (Hs' := Hs). unfold step in Hs.
  destruct (handle e w) as [w1|] eqn:Hh; [|discriminate].
  injection Hs as <-. pose proof (handle_frame _ _ _ Hh) as [_ Hfr].
  pose proof (commit_flags (ui w) w1) as Hcf.
  destruct (is_poll_settled e) eqn:Hpe.
  - right. split; [reflexivity|].
    rewrite (flags_run_active _ _ Hcf), (flags_run_active _ _ Hfr) in Ha'.
    split; [exact Ha'|]. destruct e; try discriminate.
    simpl in Hh. destruct (0 <? polls (browser w))%nat eqn:Hpos;
      [|discriminate].
    apply Nat.ltb_lt in Hpos. simpl in Hpolls. lia.
  - left. split.
    + rewrite (flags_run_active _ _ Hcf) in Ha'.
      destruct (flags_dec (ui w) (ui w1)) as [E|E].
      * now rewrite (commit_same _ _ E).
      * destruct (commit_changed _ _ E) as [_ H2].
        destruct (H2 Ha') as [-> _]. exact Hfr.
    + intros Ha. rewrite Hpolls. destruct e; try reflexivity; try discriminate.
      destruct (idle_no_tick w Hr Ha) as [_ Hno]. congruence.
Qed.

Lemma idle_run_quiet (trace : list event) (w w' : World) :
  reachable w -> run_active (ui w) = false ->
  idle_run w trace = Some w' ->
  reachable w' /\ run_active (ui w') = false
  /\ (polls (browser w') <= polls (browser w))%nat
  /\ (polls (browser w) = 0 -> liveLogs (ui w') = liveLogs (ui w)).
Proof.
  revert w. induction trace as [|e trace IH]; simpl; intros w Hr Ha.
  - intros [= <-]. repeat split; auto.
  - destruct (step w e) as [w1|] eqn:Hs; [|discriminate].
    destruct (run_active (ui w1)) eqn:Ha1; [discriminate|]. intros Hrun.
    destruct (IH w1 (reachable_step _ _ _ Hr Hs) Ha1 Hrun)
      as (Hr' & Ha' & Hle & Hkeep).
    split; [exact Hr'|]. split; [exact Ha'|].
    destruct (idle_step _ _ _ Hr Hs Ha1) as [[Hl Hp]|(_ & _ & Hp)].
    + specialize (Hp Ha). split; [lia|]. intros H0.
      rewrite Hkeep by lia. exact Hl.
    + split; [lia|]. intros H0. lia.
Qed.

(** C4, as amended: the live log is reset to the empty sequence at the
    start of every run; while a run is active the interval is live with a
    delay of 2000 ms, each firing sends a progress request, and each ok
    response that carries logs wholly replaces the displayed sequence; when a
    run ends and no other run is pending, the interval is cleared and stays
    cleared, so no further poll is issued for as long as no run is active,
    and the lines are left as they are; from then until the next run starts
    the lines change only through the response to a poll that was issued
    before the run ended and was still unanswered: polls are issued only
    while a run is active, each such response uses up one unanswered poll,
    and once none is left the lines stay as they are. *)
Theorem live_log_lifecycle (w w' : World) (e : event) :
  reachable w -> step w e = Some w' ->
  (starts (ui w) (ui w') = true -> liveLogs (ui w') = [])
  /\ (run_active (ui w') = true ->
        interval (browser w') = Some 2000%Z
        /\ exists w'', step w' Tick = Some w''
                       /\ sent (browser w'')
                          = (sent (browser w') ++ [progress_request w'])%list)
  /\ (forall res l,
        e = PollSettled (Js.Resolved res) -> Http.ok res = true ->
        Http.json res = Js.Resolved (Progress.Make (Some l)) ->
        liveLogs (ui w') = l)
  /\ ((polls (browser w) < polls (browser w'))%nat ->
        e = Tick /\ run_active (ui w) = true)
  /\ (run_active (ui w') = false ->
        (run_active (ui w) = true -> liveLogs (ui w') = liveLogs (ui w))
        /\ (run_active (ui w) = false ->
            (liveLogs (ui w') = liveLogs (ui w)
             /\ polls (browser w') = polls (browser w))
            \/ (is_poll_settled e = true
                /\ polls (browser w) = S (polls (browser w'))))
        /\ forall trace w'',
             idle_run w' trace = Some w'' ->
             run_active (ui w'') = false
             /\ interval (browser w'') = None
             /\ step w'' Tick = None
             /\ (polls (browser w'') <= polls (browser w'))%nat
             /\ (polls (browser w') = 0 ->
                 liveLogs (ui w'') = liveLogs (ui w'))
             /\ forall e' v,
                  step w'' e' = Some v -> run_active (ui v) = false ->
                  (liveLogs (ui v) = liveLogs (ui w'')
                   /\ polls (browser v) = polls (browser w''))
                  \/ (is_poll_settled e' = true
                      /\ polls (browser w'') = S (polls (browser v)))).
Proof.
  intros Hr Hs. pose proof (reachable_step _ _ _ Hr Hs) as Hr'.
  pose proof (reachable_polling_inv _ Hr') as Hp'. unfold polling_inv in Hp'.
  pose proof (step_polls _ _ _ Hs) as Hpolls.
  assert (Hstep := Hs).
  unfold step in Hs. destruct (handle e w) as [w1|] eqn:Hh; [|discriminate].
  injection Hs as Hw'. pose proof (handle_frame _ _ _ Hh) as [Hi Hfr].
  pose proof (commit_flags (ui w) w1) as Hcf. rewrite Hw' in Hcf.
  split; [|split; [|split; [|split]]].
  - (* reset at every start *)
    intros Hst. subst w'. destruct (flags_dec (ui w) (ui w1)) as [E|E].
    + rewrite (commit_same _ _ E) in Hst. rewrite (flags_starts _ _ E) in Hst.
      discriminate.
    + destruct (commit_changed _ _ E) as [H1 _].
      apply starts_run_active in Hst.
      rewrite (flags_run_active _ _ (commit_flags (ui w) w1)) in Hst.
      now destruct (H1 Hst).
  - (* polled while a run is active *)
    intros Ha. rewrite Ha in Hp'. split; [exact Hp'|].
    unfold step. simpl. rewrite Hp'.
    eexists. split; [reflexivity|]. rewrite commit_same; reflexivity.
  - (* a successful poll replaces the log *)
    intros res l -> Hok Hjson. subst w'. simpl in Hfr.
    rewrite (commit_same _ _ (eq_sym Hfr)).
    simpl in Hh. destruct (0 <? polls (browser w))%nat; [|discriminate].
    injection Hh as <-. unfold poll_settled. rewrite Hok, Hjson. reflexivity.
  - (* polls are issued only while a run is active *)
    intros Hmore. rewrite Hpolls in Hmore.
    destruct e; simpl in Hmore; try lia. split; [reflexivity|].
    destruct (run_active (ui w)) eqn:Ha; [reflexivity|].
    destruct (idle_no_tick w Hr Ha) as [_ Hno]. congruence.
  - (* no run is active any more *)
    intros Ha'. split; [|split].
    + intros Ha.
      destruct (idle_step _ _ _ Hr Hstep Ha') as [[Hl _]|(_ & H & _)];
        [exact Hl | congruence].
    + intros Ha.
      destruct (idle_step _ _ _ Hr Hstep Ha') as [[Hl Hp]|(Hpe & _ & Hp)].
      * left. split; [exact Hl | now apply Hp].
      * right. split; assumption.
    + intros trace w'' Hidle.
      destruct (idle_run_quiet _ _ _ Hr' Ha' Hidle)
        as (Hr'' & Ha'' & Hle & Hkeep).
      destruct (idle_no_tick w'' Hr'' Ha'') as [Hint Hno].
      repeat split; try assumption.
      intros e' v Hv Hav.
      destruct (idle_step _ _ _ Hr'' Hv Hav) as [[Hl Hp]|(Hpe & _ & Hp)].
      * left. split; [exact Hl | now apply Hp].
      * right. split; assumption.
Qed.

Lemma live_log_lifecycle_witness :
  reachable Sample.ready
  /\ step Sample.ready (Click RunScraperNow) = Some Sample.busy
  /\ starts (ui Sample.ready) (ui Sample.busy) = true
  /\ liveLogs (ui Sample.busy) = []
  /\ interval (browser Sample.busy) = Some 2000%Z.
Proof.
  assert (Hr : reachable Sample.ready).
  { exists (Some "t"), Sample.ready_trace. reflexivity. }
  assert (Hs : step Sample.ready (Click RunScraperNow) = Some Sample.busy)
    by reflexivity.
  destruct (live_log_lifecycle _ _ _ Hr Hs) as (Hreset & Hpoll & _).
  split; [exact Hr|]. split; [exact Hs|]. split; [reflexivity|].
  split; [exact (Hreset eq_refl) | exact (proj1 (Hpoll eq_refl))].
Defined.

(** C4 fails as stated, in two ways.  In the session [Sample.overlap_trace]
    a discovery is started while the scraper run is pending; when the
    discovery ends, the displayed lines a, b are wiped and the interval stays
    live, although no run has started.  In the session [Sample.late_trace] a
    single scraper run ends while a poll is unanswered; the interval is
    cleared, but the late response then replaces the displayed lines although
    no run is active and none has started. *)
Lemma live_log_not_left_intact :
  (run (mount (Some "t")) Sample.overlap_trace = Some Sample.overlap
   /\ liveLogs (ui Sample.overlap) = ["a"; "b"]
   /\ exists w',
        step Sample.overlap (DiscoverSettled (Js.Resolved Sample.discovery_ok))
        = Some w'
        /\ discovering (ui w') = false
        /\ starts (ui Sample.overlap) (ui w') = false
        /\ liveLogs (ui w') = []
        /\ interval (browser w') = Some 2000%Z)
  /\ (run (mount (Some "t")) Sample.late_trace = Some Sample.late
      /\ run_active (ui Sample.late) = false
      /\ interval (browser Sample.late) = None
      /\ liveLogs (ui Sample.late) = ["a"]
      /\ exists w',
           step Sample.late (Sample.progress ["a"; "b"]) = Some w'
           /\ run_active (ui w') = false
           /\ liveLogs (ui w') = ["a"; "b"]).
Proof.
  split.
  - split; [reflexivity|]. split; [reflexivity|].
    eexists. split; [reflexivity|]. repeat split.
  - split; [reflexivity|]. split; [reflexivity|]. split; [reflexivity|].
    split; [reflexivity|]. eexists. split; [reflexivity|]. split; reflexivity.
Qed.

(** *** Further properties of the admin page *)

(** What makes the two guarded run controls operable. *)
Lemma operable_DiscoverCourts (s : State) :
  operable DiscoverCourts s = true ->
  loading s = false /\ discovering s = false
  /\ (discoveryDate s =? "") = false.
Proof.
  intros Hop. apply operable_widget, render_inv in Hop.
  destruct Hop as [Hld Hop]. split; [exact Hld|].
  destruct Hop
    as [H|[H|[[H _]|[H|[H|[H|[_ [H|[H|[H|[[court [_ H]]|H]]]]]]]]]]];
    try discriminate H.
  injection H as H. symmetry in H. now apply orb_false_elim in H.
Qed.

Lemma operable_FetchSelected (s : State) :
  operable FetchSelected s = true ->
  loading s = false /\ discoveredCourts s <> [] /\ fetchingCourts s = false
  /\ (length (selectedCourts s) =? 0)%nat = false.
Proof.
  intros Hop. apply operable_widget, render_inv in Hop.
  destruct Hop as [Hld Hop]. split; [exact Hld|].
  destruct Hop
    as [H|[H|[[H _]|[H|[H|[H|[Hne [H|[H|[H|[[court [_ H]]|H]]]]]]]]]]];
    try discriminate H.
  split; [exact Hne|].
  injection H as H. symmetry in H. now apply orb_false_elim in H.
Qed.

(** *** Which events move a run flag *)

Lemma fetchData_flags (w : World) : flags (ui (fetchData w)) = flags (ui w).
Proof. unfold fetchData. destruct (no_token w); reflexivity. Qed.

Lemma triggerScraper_settled_flags r (w : World) :
  flags (ui (triggerScraper_settled r w))
  = (false, discovering (ui w), fetchingCourts (ui w)).
Proof.
  unfold triggerScraper_settled, triggerScraper_catch.
  destruct r as [err|response]; [reflexivity|].
  destruct (Http.json response) as [err|data]; [reflexivity|].
  destruct (Http.ok response).
  - destruct (Js.get data "records_extracted"); [reflexivity|].
    unfold fetchData. destruct (no_token _); reflexivity.
  - destruct (Js.get data "message"); reflexivity.
Qed.

Lemma discoverCourts_settled_flags r (w : World) :
  flags (ui (discoverCourts_settled r w))
  = (triggering (ui w), false, fetchingCourts (ui w)).
Proof.
  unfold discoverCourts_settled, discoverCourts_catch.
  destruct r as [err|response]; [reflexivity|].
  destruct (Http.json response) as [err|data]; [reflexivity|].
  destruct (Http.ok response); [|reflexivity].
  destruct (0 <? _)%nat; reflexivity.
Qed.

Lemma fetchSelectedCourts_settled_flags r (w : World) :
  flags (ui (fetchSelectedCourts_settled r w))
  = (triggering (ui w), discovering (ui w), false).
Proof.
  unfold fetchSelectedCourts_settled, fetchSelectedCourts_catch.
  destruct r as [err|response]; [reflexivity|].
  destruct (Http.json response) as [err|data]; [reflexivity|].
  destruct (Http.ok response).
  - destruct (Js.get data "total_cases_saved"); [reflexivity|].
    destruct (Js.get data "courts_processed"); [reflexivity|].
    unfold fetchData. destruct (no_token _); reflexivity.
  - destruct (Js.get data "detail"); reflexivity.
Qed.

Lemma fetchData_settled_flags r (w : World) :
  flags (ui (fetchData_settled r w)) = flags (ui w).
Proof.
  unfold fetchData_settled, fetchData_catch.
  destruct r as [err|[statusRes logsRes]]; [reflexivity|].
  destruct (Http.ok statusRes), (Http.json statusRes), (Http.ok logsRes),
    (Http.json logsRes); reflexivity.
Qed.


Lemma step_flags (e : event) (w w' : World) :
  step w e = Some w' -> flags (ui w') = flags_after e w.
Proof.
  unfold step. destruct (handle e w) as [w1|] eqn:Hh; [|discriminate].
  intros [= <-]. rewrite commit_flags. revert Hh.
  destruct e; simpl.
  - destruct (operable c (ui w)) eqn:Hop; [|discriminate]. intros [= <-].
    destruct c; simpl; try reflexivity.
    + apply operable_DiscoverCourts in Hop as (_ & _ & Hd).
      unfold discoverCourts. rewrite Hd. reflexivity.
    + unfold toggleAll. destruct (_ =? _)%nat; reflexivity.
    + apply operable_FetchSelected in Hop as (_ & _ & _ & Hl).
      unfold fetchSelectedCourts. rewrite Hl. reflexivity.
  - destruct (operable c (ui w) && date_input_value value); [|discriminate].
    destruct c; simpl; try discriminate; intros [= <-]; reflexivity.
  - destruct (interval (browser w)); [|discriminate]. now intros [= <-].
  - destruct (0 <? polls (browser w))%nat; [|discriminate]. intros [= <-].
    unfold poll_settled. destruct r as [err|res]; [reflexivity|].
    destruct (Http.ok res); [|reflexivity].
    destruct (Http.json res) as [err|data]; [reflexivity|].
    destruct (Progress.logs data); reflexivity.
  - destruct (0 <? stops (browser w))%nat; [|discriminate]. intros [= <-].
    destruct r; reflexivity.
  - destruct (0 <? loads (browser w))%nat; [|discriminate]. intros [= <-].
    apply fetchData_settled_flags.
  - destruct (triggering (ui w)); [|discriminate]. intros [= <-].
    apply triggerScraper_settled_flags.
  - destruct (discovering (ui w)); [|discriminate]. intros [= <-].
    apply discoverCourts_settled_flags.
  - destruct (fetchingCourts (ui w)); [|discriminate]. intros [= <-].
    apply fetchSelectedCourts_settled_flags.
Qed.

(** X1: a run flag is moved only by its own run: triggering is raised only
    by a click on one of the two trigger buttons and lowered only by the
    settling of the trigger request, and likewise discovering by Discover
    Courts and its request, fetchingCourts by the fetch button and its
    request.  No other event, a click on Stop and the answer to a stop
    request included, changes any of the three flags. *)
Theorem run_flag_moved_only_by_its_own_run (w w' : World) (e : event) :
  step w e = Some w' ->
  (triggering (ui w') <> triggering (ui w) ->
     (triggering (ui w') = true
      /\ (e = Click RunScraperNow \/ e = Click TriggerScraperManually))
     \/ (triggering (ui w') = false /\ exists r, e = TriggerSettled r))
  /\ (discovering (ui w') <> discovering (ui w) ->
        (discovering (ui w') = true /\ e = Click DiscoverCourts)
        \/ (discovering (ui w') = false /\ exists r, e = DiscoverSettled r))
  /\ (fetchingCourts (ui w') <> fetchingCourts (ui w) ->
        (fetchingCourts (ui w') = true /\ e = Click FetchSelected)
        \/ (fetchingCourts (ui w') = false /\ exists r, e = FetchSettled r)).
Proof.
  intros Hs. apply step_flags in Hs. unfold flags in Hs.
  destruct e as [c|c v| |r|r|r|r|r|r]; try destruct c; simpl in Hs;
    injection Hs as -> -> ->;
    repeat split; intros H; try congruence; eauto 6.
Qed.

Lemma run_flag_moved_only_by_its_own_run_witness :
  step Sample.ready (Click RunScraperNow) = Some Sample.busy
  /\ triggering (ui Sample.busy) <> triggering (ui Sample.ready)
  /\ ((triggering (ui Sample.busy) = true
       /\ (Click RunScraperNow = Click RunScraperNow
           \/ Click RunScraperNow = Click TriggerScraperManually))
      \/ (triggering (ui Sample.busy) = false
          /\ exists r, Click RunScraperNow = TriggerSettled r)).
Proof.
  assert (Hs : step Sample.ready (Click RunScraperNow) = Some Sample.busy)
    by reflexivity.
  assert (Hne : triggering (ui Sample.busy) <> triggering (ui Sample.ready))
    by discriminate.
  split; [exact Hs|]. split; [exact Hne|].
  exact (proj1 (run_flag_moved_only_by_its_own_run _ _ _ Hs) Hne).
Defined.

Lemma fetchData_emits (f : State -> State) (w : World) :
  token (browser (fetchData (render_with f w))) = token (browser w)
  /\ exists rs,
       sent (browser (fetchData (render_with f w)))
       = (sent (browser w) ++ rs)%list
       /\ forall r, In r rs -> emitted w r.
Proof.
  unfold fetchData.
  change (no_token (render_with f w)) with (no_token w).
  destruct (no_token w) eqn:Ht; simpl; (split; [reflexivity|]).
  - exists []. split; [now rewrite app_nil_r | intros r []].
  - exists [status_request w; logs_request w]. split.
    + now rewrite <- app_assoc.
    + intros r [<-|[<-|[]]]; left; tauto.
Qed.

Ltac emits_nothing :=
  split; [reflexivity|];
  exists []; split; [simpl; now rewrite app_nil_r | intros ? []].

Ltac emits_one r :=
  split; [reflexivity|];
  exists [r]; split; [reflexivity|];
  let x := fresh in intros x [<-|[]]; unfold emitted; tauto.

Lemma handle_emits (e : event) (w w' : World) :
  handle e w = Some w' ->
  token (browser w') = token (browser w)
  /\ exists rs,
       sent (browser w') = (sent (browser w) ++ rs)%list
       /\ forall r, In r rs -> emitted w r.
Proof.
  destruct e; simpl.
  - destruct (operable c (ui w)); [|discriminate]. intros [= <-].
    destruct c; simpl; try emits_nothing.
    + emits_one (trigger_request w).
    + emits_one (stop_request w).
    + emits_one (trigger_request w).
    + unfold discoverCourts. destruct (discoveryDate (ui w) =? "").
      * emits_nothing.
      * emits_one (discover_request w).
    + unfold fetchSelectedCourts.
      destruct (length (selectedCourts (ui w)) =? 0)%nat.
      * emits_nothing.
      * emits_one (fetch_court_data_request w).
  - destruct (operable c (ui w) && date_input_value value); [|discriminate].
    destruct c; simpl; try discriminate; intros [= <-]; emits_nothing.
  - destruct (interval (browser w)); [|discriminate]. intros [= <-].
    emits_one (progress_request w).
  - destruct (0 <? polls (browser w))%nat; [|discriminate]. intros [= <-].
    unfold poll_settled. destruct r as [err|res]; [emits_nothing|].
    destruct (Http.ok res); [|emits_nothing].
    destruct (Http.json res) as [err|data]; [emits_nothing|].
    destruct (Progress.logs data); emits_nothing.
  - destruct (0 <? stops (browser w))%nat; [|discriminate]. intros [= <-].
    destruct r; emits_nothing.
  - destruct (0 <? loads (browser w))%nat; [|discriminate]. intros [= <-].
    unfold fetchData_settled, fetchData_catch.
    destruct r as [err|[statusRes logsRes]]; [emits_nothing|].
    destruct (Http.ok statusRes), (Http.json statusRes), (Http.ok logsRes),
      (Http.json logsRes); emits_nothing.
  - destruct (triggering (ui w)); [|discriminate]. intros [= <-].
    unfold triggerScraper_settled, triggerScraper_catch.
    destruct r as [err|response]; [emits_nothing|].
    destruct (Http.json response) as [err|data]; [emits_nothing|].
    destruct (Http.ok response).
    + destruct (Js.get data "records_extracted") as [err|n]; [emits_nothing|].
      match goal with
      | |- context [fetchData (render_with ?f w)] =>
          destruct (fetchData_emits f w) as [Ht [rs [E H]]]
      end.
      split; [exact Ht|]. exists rs. split; [exact E | exact H].
    + destruct (Js.get data "message"); emits_nothing.
  - destruct (discovering (ui w)); [|discriminate]. intros [= <-].
    unfold discoverCourts_settled, discoverCourts_catch.
    destruct r as [err|response]; [emits_nothing|].
    destruct (Http.json response) as [err|data]; [emits_nothing|].
    destruct (Http.ok response); [|emits_nothing].
    destruct (0 <? length (CourtDiscoveryResponse.courts data))%nat;
      emits_nothing.
  - destruct (fetchingCourts (ui w)); [|discriminate]. intros [= <-].
    unfold fetchSelectedCourts_settled, fetchSelectedCourts_catch.
    destruct r as [err|response]; [emits_nothing|].
    destruct (Http.json response) as [err|data]; [emits_nothing|].
    destruct (Http.ok response).
    + destruct (Js.get data "total_cases_saved") as [err|n]; [emits_nothing|].
      destruct (Js.get data "courts_processed") as [err|m]; [emits_nothing|].
      match goal with
      | |- context [fetchData (render_with ?f w)] =>
          destruct (fetchData_emits f w) as [Ht [rs [E H]]]
      end.
      split; [exact Ht|]. exists rs. split; [exact E | exact H].
    + destruct (Js.get data "detail"); emits_nothing.
Qed.

Lemma step_emits (e : event) (w w' : World) :
  step w e = Some w' ->
  token (browser w') = token (browser w)
  /\ exists rs,
       sent (browser w') = (sent (browser w) ++ rs)%list
       /\ forall r, In r rs -> emitted w r.
Proof.
  unfold step. destruct (handle e w) as [w1|] eqn:Hh; [|discriminate].
  intros [= <-]. destruct (commit_browser (ui w) w1) as [Hs Ht].
  rewrite Hs, Ht. exact (handle_emits _ _ _ Hh).
Qed.

(** Every request sent so far was emitted by some world with the same
    stored token. *)
Lemma run_emitted (trace : list event) (w w' : World) :
  run w trace = Some w' ->
  token (browser w') = token (browser w)
  /\ forall r, In r (sent (browser w')) ->
               In r (sent (browser w))
               \/ exists w0, token (browser w0) = token (browser w)
                             /\ emitted w0 r.
Proof.
  revert w. induction trace as [|e trace IH]; simpl; intros w.
  - intros [= <-]. split; [reflexivity | tauto].
  - destruct (step w e) as [w1|] eqn:Hs; [|discriminate]. intros Hrun.
    destruct (step_emits _ _ _ Hs) as [Ht [rs [E H]]].
    destruct (IH _ Hrun) as [Ht' Hall]. split; [congruence|].
    intros r Hr. destruct (Hall r Hr) as [Hin|[w0 [Hw0 Hem]]].
    + rewrite E in Hin. apply in_app_or in Hin. destruct Hin as [Hin|Hin].
      * now left.
      * right. exists w. split; [reflexivity | now apply H].
    + right. exists w0. split; [congruence | exact Hem].
Qed.

Lemma mount_emitted (tok : option string) :
  token (browser (mount tok)) = tok
  /\ forall r, In r (sent (browser (mount tok))) ->
               exists w0, token (browser w0) = tok /\ emitted w0 r.
Proof.
  set (w0 := mkWorld initial (mkBrowser tok None 0 0 0 [])).
  unfold mount, progress_effect. simpl. unfold fetchData.
  change (no_token _) with (no_token w0).
  destruct (no_token w0) eqn:Ht; simpl; (split; [reflexivity|]).
  - intros r [].
  - intros r [<-|[<-|[]]]; exists w0; (split; [reflexivity|]); left; tauto.
Qed.

Lemma emitted_shape (w : World) (r : Http.request) :
  emitted w r ->
  In (request_shape r) request_shapes
  /\ hd_error (Http.headers r) = Some (Http.bearer (token (browser w))).
Proof.
  unfold emitted, request_shapes.
  intros [[_ [->| ->]]|[->|[->|[->|[->| ->]]]]];
    (split; [|reflexivity]); unfold request_shape; simpl;
    rewrite ?trigger_path; tauto.
Qed.

(** X2: in every session of the admin page the stored token never changes,
    and every request sent has one of seven shapes (GET status, logs,
    progress, discover-courts; POST trigger, stop, fetch-court-data; a body
    only on fetch-court-data) and carries as its first header the
    authorization header built from the stored token, which reads
    "Bearer null" when none is stored. *)
Theorem every_request_known_and_authorized
        (tok : option string) (trace : list event) (w : World) :
  run (mount tok) trace = Some w ->
  token (browser w) = tok
  /\ forall r, In r (sent (browser w)) ->
               In (request_shape r) request_shapes
               /\ hd_error (Http.headers r) = Some (Http.bearer tok).
Proof.
  intros Hrun. destruct (run_emitted _ _ _ Hrun) as [Ht Hall].
  destruct (mount_emitted tok) as [Hm Hmall]. rewrite Hm in *.
  split; [exact Ht|]. intros r Hr.
  assert (Hw0 : exists w0, token (browser w0) = tok /\ emitted w0 r).
  { destruct (Hall r Hr) as [Hin|H]; [now apply Hmall | exact H]. }
  destruct Hw0 as [w0 [<- Hem]]. now apply emitted_shape.
Qed.

Lemma every_request_known_and_authorized_witness :
  run (mount (Some "t")) Sample.late_trace = Some Sample.late
  /\ length (sent (browser Sample.late)) = 7
  /\ forall r, In r (sent (browser Sample.late)) ->
                hd_error (Http.headers r) = Some ("Authorization", "Bearer t").
Proof.
  assert (Hrun : run (mount (Some "t")) Sample.late_trace = Some Sample.late)
    by reflexivity.
  split; [exact Hrun|]. split; [reflexivity|]. intros r Hr.
  exact (proj2 (proj2 (every_request_known_and_authorized _ _ _ Hrun) r Hr)).
Defined.

(** *** Loading *)

Lemma operable_loading (c : control) (s : State) :
  loading s = true -> operable c s = false.
Proof. intros H. unfold operable, render. now rewrite H. Qed.

Lemma commit_load (before : State) (w : World) :
  loading (ui (commit before w)) = loading (ui w)
  /\ loads (browser (commit before w)) = loads (browser w)
  /\ status (ui (commit before w)) = status (ui w)
  /\ logs (ui (commit before w)) = logs (ui w).
Proof.
  unfold commit, progress_cleanup, progress_effect.
  destruct (same_deps before (ui w)); [tauto|].
  simpl. destruct (run_active (ui w)); simpl; tauto.
Qed.

(** What an event other than the settling of a load does to the cells a
    load fills: nothing to the status and the logs; it may start a load, or
    find no token and then only clears [loading]. *)
Lemma handle_load (e : event) (w w' : World) :
  handle e w = Some w' ->
  (exists r, e = LoadSettled r)
  \/ (status (ui w') = status (ui w) /\ logs (ui w') = logs (ui w)
      /\ ((loading (ui w') = loading (ui w)
           /\ loads (browser w') = loads (browser w))
          \/ (no_token w = true /\ loading (ui w') = false
              /\ loads (browser w') = loads (browser w))
          \/ (no_token w = false /\ loading (ui w') = loading (ui w)
              /\ loads (browser w') = S (loads (browser w))))).
Proof.
  assert (Hfd : forall f,
             loading (f (ui w)) = loading (ui w) ->
             status (f (ui w)) = status (ui w) ->
             logs (f (ui w)) = logs (ui w) ->
             let v := fetchData (render_with f w) in
             status (ui v) = status (ui w) /\ logs (ui v) = logs (ui w)
             /\ ((loading (ui v) = loading (ui w)
                  /\ loads (browser v) = loads (browser w))
                 \/ (no_token w = true /\ loading (ui v) = false
                     /\ loads (browser v) = loads (browser w))
                 \/ (no_token w = false /\ loading (ui v) = loading (ui w)
                     /\ loads (browser v) = S (loads (browser w))))).
  { intros f H1 H2 H3. unfold fetchData.
    change (no_token (render_with f w)) with (no_token w).
    destruct (no_token w); simpl; rewrite ?H1, ?H2, ?H3; tauto. }
  destruct e; simpl; try (intros _; left; eauto; fail).
  - destruct (operable c (ui w)); [|discriminate]. intros [= <-]. right.
    destruct c; simpl; try tauto.
    + unfold discoverCourts. destruct (_ =? _); simpl; tauto.
    + unfold toggleAll. destruct (_ =? _)%nat; simpl; tauto.
    + unfold fetchSelectedCourts. destruct (_ =? _)%nat; simpl; tauto.
  - destruct (operable c (ui w) && date_input_value value); [|discriminate].
    destruct c; simpl; try discriminate; intros [= <-]; right; simpl; tauto.
  - destruct (interval (browser w)); [|discriminate]. intros [= <-].
    right. simpl. tauto.
  - destruct (0 <? polls (browser w))%nat; [|discriminate]. intros [= <-].
    right. unfold poll_settled. destruct r as [err|res]; [simpl; tauto|].
    destruct (Http.ok res); [|simpl; tauto].
    destruct (Http.json res) as [err|data]; [simpl; tauto|].
    destruct (Progress.logs data); simpl; tauto.
  - destruct (0 <? stops (browser w))%nat; [|discriminate]. intros [= <-].
    right. destruct r; simpl; tauto.
  - destruct (triggering (ui w)); [|discriminate]. intros [= <-]. right.
    unfold triggerScraper_settled, triggerScraper_catch.
    destruct r as [err|response]; [simpl; tauto|].
    destruct (Http.json response) as [err|data]; [simpl; tauto|].
    destruct (Http.ok response).
    + destruct (Js.get data "records_extracted") as [err|n]; [simpl; tauto|].
      match goal with
      | |- context [fetchData (render_with ?f w)] =>
          exact (Hfd f eq_refl eq_refl eq_refl)
      end.
    + destruct (Js.get data "message"); simpl; tauto.
  - destruct (discovering (ui w)); [|discriminate]. intros [= <-]. right.
    unfold discoverCourts_settled, discoverCourts_catch.
    destruct r as [err|response]; [simpl; tauto|].
    destruct (Http.json response) as [err|data]; [simpl; tauto|].
    destruct (Http.ok response); [|simpl; tauto].
    destruct (0 <? _)%nat; simpl; tauto.
  - destruct (fetchingCourts (ui w)); [|discriminate]. intros [= <-]. right.
    unfold fetchSelectedCourts_settled, fetchSelectedCourts_catch.
    destruct r as [err|response]; [simpl; tauto|].
    destruct (Http.json response) as [err|data]; [simpl; tauto|].
    destruct (Http.ok response).
    + destruct (Js.get data "total_cases_saved") as [err|n]; [simpl; tauto|].
      destruct (Js.get data "courts_processed") as [err|m]; [simpl; tauto|].
      match goal with
      | |- context [fetchData (render_with ?f w)] =>
          exact (Hfd f eq_refl eq_refl eq_refl)
      end.
    + destruct (Js.get data "detail"); simpl; tauto.
Qed.

Lemma fetchData_settled_load r (w : World) :
  loading (ui (fetchData_settled r w)) = false
  /\ loads (browser (fetchData_settled r w)) = pred (loads (browser w)).
Proof.
  unfold fetchData_settled, fetchData_catch.
  destruct r as [err|[statusRes logsRes]]; [split; reflexivity|].
  destruct (Http.ok statusRes), (Http.json statusRes), (Http.ok logsRes),
    (Http.json logsRes); split; reflexivity.
Qed.

Lemma step_loading_stays_off (e : event) (w w' : World) :
  step w e = Some w' -> loading (ui w) = false -> loading (ui w') = false.
Proof.
  unfold step. destruct (handle e w) as [w1|] eqn:Hh; [|discriminate].
  intros [= <-] Hl. rewrite (proj1 (commit_load _ _)).
  destruct (handle_load _ _ _ Hh) as [[r ->]|(_ & _ & H)].
  - simpl in Hh. destruct (0 <? loads (browser w))%nat; [|discriminate].
    injection Hh as <-. apply fetchData_settled_load.
  - destruct H as [[H _]|[(_ & H & _)|(_ & H & _)]]; congruence.
Qed.

Lemma step_loading_inv (e : event) (w w' : World) :
  loading_inv w -> step w e = Some w' -> loading_inv w'.
Proof.
  intros Hinv Hs. destruct (loading (ui w)) eqn:Hl.
  2:{ intros H. rewrite (step_loading_stays_off _ _ _ Hs Hl) in H.
      discriminate. }
  destruct (Hinv Hl) as (Hloads & Hact & Hst & Hlg).
  pose proof (step_flags _ _ _ Hs) as Hfl.
  unfold step in Hs. destruct (handle e w) as [w1|] eqn:Hh; [|discriminate].
  injection Hs as <-. intros Hl'.
  destruct (commit_load (ui w) w1) as (E1 & E2 & E3 & E4).
  rewrite E1 in Hl'. rewrite E2, E3, E4.
  destruct (handle_load _ _ _ Hh) as [[r ->]|(Hs1 & Hs2 & H)].
  { simpl in Hh. destruct (0 <? loads (browser w))%nat; [|discriminate].
    injection Hh as <-. rewrite (proj1 (fetchData_settled_load r w)) in Hl'.
    discriminate. }
  assert (Hsame : flags_after e w = flags (ui w)).
  { unfold run_active in Hact. apply orb_false_elim in Hact as [Hact Hf].
    apply orb_false_elim in Hact as [Ht Hd].
    destruct e as [c|c v| |r|r|r|r|r|r]; simpl in Hh |- *; try reflexivity.
    - rewrite (operable_loading c _ Hl) in Hh. discriminate.
    - rewrite Ht in Hh. discriminate.
    - rewrite Hd in Hh. discriminate.
    - rewrite Hf in Hh. discriminate. }
  rewrite Hsame in Hfl. rewrite (flags_run_active _ _ Hfl), Hs1, Hs2.
  destruct H as [[_ H]|[(_ & H & _)|(_ & _ & H)]].
  - rewrite H. tauto.
  - congruence.
  - rewrite H. repeat split; try assumption. lia.
Qed.

Lemma mount_loading_inv (tok : option string) : loading_inv (mount tok).
Proof.
  unfold loading_inv, mount, fetchData, progress_effect. simpl.
  destruct (no_token _); simpl; [discriminate|]. intros _.
  repeat split. lia.
Qed.



(** *** Without a token *)

Lemma no_token_same (a b : World) :
  token (browser a) = token (browser b) -> no_token a = no_token b.
Proof. unfold no_token. now intros ->. Qed.

Lemma emitted_tokenless (w : World) (r : Http.request) :
  no_token w = true -> emitted w r ->
  Http.url r <> "/api/proxy/api/scraper/status"
  /\ Http.url r <> "/api/proxy/api/scraper/logs".
Proof.
  intros Ht [[Hf _]|[->|[->|[->|[->| ->]]]]]; [congruence| | | | |];
    split; try discriminate;
    simpl; intros H; apply (f_equal Url.path) in H;
    rewrite trigger_path in H; discriminate.
Qed.

(** X3: when no token is stored (absent or empty), the page never loads
    anything: in every session loading is off, no status and no logs are ever
    stored, no load is pending, and no request to the status or the logs
    endpoint is ever sent, whatever else the operator does. *)
Theorem no_token_nothing_loaded
        (tok : option string) (trace : list event) (w : World) :
  tok = None \/ tok = Some "" ->
  run (mount tok) trace = Some w ->
  loading (ui w) = false
  /\ status (ui w) = None /\ logs (ui w) = []
  /\ loads (browser w) = 0
  /\ forall r, In r (sent (browser w)) ->
               Http.url r <> "/api/proxy/api/scraper/status"
               /\ Http.url r <> "/api/proxy/api/scraper/logs".
Proof.
  intros Htok Hrun.
  assert (Hno : no_token (mount tok) = true).
  { destruct Htok as [-> | ->]; reflexivity. }
  assert (Hcells : loading (ui w) = false /\ status (ui w) = None
                   /\ logs (ui w) = [] /\ loads (browser w) = 0).
  { assert (H0 : loading (ui (mount tok)) = false
                 /\ status (ui (mount tok)) = None
                 /\ logs (ui (mount tok)) = []
                 /\ loads (browser (mount tok)) = 0).
    { destruct Htok as [-> | ->]; repeat split. }
    revert H0 Hno Hrun. generalize (mount tok).
    induction trace as [|e trace IH]; simpl.
    - now intros w0 H _ [= <-].
    - intros w0 (Hl & Hst & Hlg & Hld) Hno.
      destruct (step w0 e) as [w1|] eqn:Hs; [|discriminate].
      apply IH.
      + pose proof (step_loading_stays_off _ _ _ Hs Hl) as Hl1.
        split; [exact Hl1|]. unfold step in Hs.
        destruct (handle e w0) as [w2|] eqn:Hh; [|discriminate].
        injection Hs as <-.
        destruct (commit_load (ui w0) w2) as (_ & E2 & E3 & E4).
        rewrite E2, E3, E4.
        destruct (handle_load _ _ _ Hh) as [[r ->]|(Hs1 & Hs2 & H)].
        { simpl in Hh. rewrite Hld in Hh. discriminate. }
        rewrite Hs1, Hs2.
        destruct H as [[_ H]|[(_ & _ & H)|(H & _)]]; [| |congruence];
          rewrite H; tauto.
      + rewrite <- Hno. apply no_token_same.
        exact (proj1 (step_emits _ _ _ Hs)). }
  destruct Hcells as (Hl & Hst & Hlg & Hld).
  repeat split; try assumption;
    destruct (run_emitted _ _ _ Hrun) as [Ht Hall];
    destruct (mount_emitted tok) as [Hm Hmall];
    (assert (Hw0 : exists w0, token (browser w0) = tok /\ emitted w0 r)
      by (destruct (Hall r H) as [Hin|[w0 [Hw0 Hem]]];
          [now apply Hmall | exists w0; split; [congruence | exact Hem]]));
    destruct Hw0 as [w0 [Hw0 Hem]];
    (assert (Hno0 : no_token w0 = true)
      by (rewrite <- Hno; apply no_token_same; congruence));
    now apply (emitted_tokenless w0 r Hno0 Hem).
Qed.

Lemma no_token_nothing_loaded_witness :
  run (mount None) Sample.anonymous_trace = Some Sample.anonymous
  /\ length (sent (browser Sample.anonymous)) = 1
  /\ status (ui Sample.anonymous) = None
  /\ error (ui Sample.anonymous) = Js.Str "Please login first".
Proof.
  assert (Hrun : run (mount None) Sample.anonymous_trace
                 = Some Sample.anonymous) by reflexivity.
  destruct (no_token_nothing_loaded None _ _ (or_introl eq_refl) Hrun)
    as (_ & Hst & _).
  split; [exact Hrun|]. split; [reflexivity|]. split; [exact Hst|].
  reflexivity.
Defined.

(** *** The trigger URL *)

Lemma pieces_free (sep : ascii) (a : string) :
  Url.free_of sep a = true -> Url.pieces sep a = [a].
Proof.
  induction a as [|c a IH]; simpl; intros H; [reflexivity|].
  apply andb_prop in H as [Hc Ha]. apply negb_true_iff in Hc.
  now rewrite Hc, (IH Ha).
Qed.

(** X5: [triggerScraper] sends one POST without a body to the trigger
    endpoint; the request carries the single parameter target_date when a
    date to scrape is chosen and no parameter at all when the date input is
    empty. *)
Theorem triggerScraper_date_is_optional (w : World) :
  date_input_value (targetDate (ui w)) = true ->
  let r := trigger_request w in
  sent (browser (triggerScraper w)) = (sent (browser w) ++ [r])%list
  /\ Http.meth r = Http.POST /\ Http.payload r = Http.NoBody
  /\ Url.path (Http.url r) = "/api/proxy/api/scraper/trigger"
  /\ Url.params (Http.url r)
     = (if targetDate (ui w) =? "" then []
        else [("target_date", targetDate (ui w))]).
Proof.
  intros Hd r. subst r. repeat split.
  - apply trigger_path.
  - simpl. unfold trigger_url, Url.params.
    destruct (targetDate (ui w) =? "") eqn:E; [reflexivity|].
    change (Url.query ("/api/proxy/api/scraper/trigger"
                         ++ "?target_date=" ++ targetDate (ui w)))
      with ("target_date=" ++ targetDate (ui w)).
    rewrite pieces_free by (simpl; now apply date_free_of_amp).
    reflexivity.
Qed.

Lemma triggerScraper_date_is_optional_witness :
  Url.params (Http.url (trigger_request Sample.dated))
  = [("target_date", "2025-01-15")]
  /\ Url.params (Http.url (trigger_request Sample.ready)) = [].
Proof.
  split.
  - exact (proj2 (proj2 (proj2 (proj2
             (triggerScraper_date_is_optional Sample.dated eq_refl))))).
  - exact (proj2 (proj2 (proj2 (proj2
             (triggerScraper_date_is_optional Sample.ready eq_refl))))).
Defined.

(** *** Feedback *)

Lemma or_str_text (s fallback : string) :
  fallback <> "" -> Js.or_str s fallback <> "".
Proof.
  intros H. unfold Js.or_str. destruct (String.eqb_spec s ""); assumption.
Qed.

Lemma or_member (m : Js.value) (fallback : string) :
  fallback <> "" ->
  (exists s, s <> "" /\ Js.or m (Js.Str fallback) = Js.Str s)
  \/ (Js.truthy m = true /\ Js.or m (Js.Str fallback) = m).
Proof.
  intros H. unfold Js.or. destruct (Js.truthy m).
  - right. split; reflexivity.
  - left. exists fallback. split; [exact H | reflexivity].
Qed.

(** X6: however the request of a scraper run or of a fetch run settles
    (rejected, unreadable body, non-ok or ok answer, any document), the
    handler lowers the flag of its own run and leaves the other two flags
    alone, and it ends with a non-empty message or with the error set: to a
    non-empty string on every failing path, except that a truthy message
    (for a scraper run) or detail (for a fetch run) member of a non-ok
    document is stored as the error as it is, whatever its type. *)
Theorem settled_run_leaves_feedback (r : Http.result Js.value) (w : World) :
  (let w' := triggerScraper_settled r w in
   flags (ui w') = (false, discovering (ui w), fetchingCourts (ui w))
   /\ (message (ui w') <> ""
       \/ (exists s, s <> "" /\ error (ui w') = Js.Str s)
       \/ (exists response data m,
             r = Js.Resolved response /\ Http.ok response = false
             /\ Http.json response = Js.Resolved data
             /\ Js.get data "message" = Js.Resolved m
             /\ Js.truthy m = true /\ error (ui w') = m)))
  /\ (let w' := fetchSelectedCourts_settled r w in
      flags (ui w') = (triggering (ui w), discovering (ui w), false)
      /\ (message (ui w') <> ""
          \/ (exists s, s <> "" /\ error (ui w') = Js.Str s)
          \/ (exists response data m,
                r = Js.Resolved response /\ Http.ok response = false
                /\ Http.json response = Js.Resolved data
                /\ Js.get data "detail" = Js.Resolved m
                /\ Js.truthy m = true /\ error (ui w') = m))).
Proof.
  assert (Hfd : forall f,
             message (f (ui w)) <> "" ->
             message (ui (fetchData (render_with f w))) <> "").
  { intros f H. unfold fetchData. destruct (no_token _); exact H. }
  assert (Htext : forall msg fallback,
             fallback <> "" ->
             exists s, s <> "" /\ Js.Str (Js.or_str msg fallback) = Js.Str s).
  { intros msg fallback H. eexists. split; [|reflexivity].
    now apply or_str_text. }
  split; simpl.
  - split; [apply triggerScraper_settled_flags|].
    unfold triggerScraper_settled, triggerScraper_catch.
    destruct r as [err|response];
      [right; left; apply Htext; discriminate|].
    destruct (Http.json response) as [err|data] eqn:Hjson;
      [right; left; apply Htext; discriminate|].
    destruct (Http.ok response) eqn:Hok.
    + destruct (Js.get data "records_extracted") as [err|n];
        [right; left; apply Htext; discriminate|].
      left.
      match goal with
      | |- context [fetchData (render_with ?f w)] =>
          apply (Hfd f); discriminate
      end.
    + destruct (Js.get data "message") as [err|m] eqn:Hget;
        [right; left; apply Htext; discriminate|].
      right. simpl.
      destruct (or_member m "Failed to trigger scraper") as [H|[Ht E]];
        [discriminate | left; exact H |].
      right. exists response, data, m. repeat split; assumption.
  - split; [apply fetchSelectedCourts_settled_flags|].
    unfold fetchSelectedCourts_settled, fetchSelectedCourts_catch.
    destruct r as [err|response];
      [right; left; apply Htext; discriminate|].
    destruct (Http.json response) as [err|data] eqn:Hjson;
      [right; left; apply Htext; discriminate|].
    destruct (Http.ok response) eqn:Hok.
    + destruct (Js.get data "total_cases_saved") as [err|n];
        [right; left; apply Htext; discriminate|].
      destruct (Js.get data "courts_processed") as [err|p];
        [right; left; apply Htext; discriminate|].
      left.
      match goal with
      | |- context [fetchData (render_with ?f w)] =>
          apply (Hfd f); discriminate
      end.
    + destruct (Js.get data "detail") as [err|m] eqn:Hget;
        [right; left; apply Htext; discriminate|].
      right. simpl.
      destruct (or_member m "Failed to fetch court data") as [H|[Ht E]];
        [discriminate | left; exact H |].
      right. exists response, data, m. repeat split; assumption.
Qed.

(** *** What a fetch names *)

(** X7: whenever a click on the fetch button is accepted, in any session,
    exactly one fetch request is sent; the court numbers it names are the
    current selection, which is not empty and lies within the court numbers
    of the discovered courts; and fetchingCourts is set. *)
Theorem fetch_names_only_discovered_courts (w w' : World) :
  reachable w -> step w (Click FetchSelected) = Some w' ->
  selectedCourts (ui w) <> []
  /\ incl (selectedCourts (ui w))
          (map Court.court_number (discoveredCourts (ui w)))
  /\ sent (browser w')
     = (sent (browser w) ++ [fetch_court_data_request w])%list
  /\ court_numbers_of (fetch_court_data_request w)
     = Some (map Js.Str (selectedCourts (ui w)))
  /\ fetchingCourts (ui w') = true.
Proof.
  intros Hr Hs. pose proof (step_flags _ _ _ Hs) as Hfl.
  unfold step in Hs. simpl in Hs.
  destruct (operable FetchSelected (ui w)) eqn:Hop; [|discriminate].
  injection Hs as <-.
  apply operable_FetchSelected in Hop as (_ & _ & _ & Hlen).
  split; [intros E; rewrite E in Hlen; discriminate|].
  split; [apply (reachable_selection_inv w Hr)|].
  split; [|split; [reflexivity|]].
  - rewrite (proj1 (commit_browser _ _)).
    unfold fetchSelectedCourts. rewrite Hlen. reflexivity.
  - simpl in Hfl. unfold flags in Hfl. now injection Hfl.
Qed.

Lemma fetch_names_only_discovered_courts_witness :
  reachable Sample.chosen
  /\ step Sample.chosen (Click FetchSelected)
     = Some (commit (ui Sample.chosen) (fetchSelectedCourts Sample.chosen))
  /\ court_numbers_of (fetch_court_data_request Sample.chosen)
     = Some [Js.Str "3"; Js.Str "17"].
Proof.
  assert (Hr : reachable Sample.chosen).
  { exists (Some "t"), Sample.chosen_trace. reflexivity. }
  assert (Hs : step Sample.chosen (Click FetchSelected)
               = Some (commit (ui Sample.chosen)
                              (fetchSelectedCourts Sample.chosen)))
    by reflexivity.
  destruct (fetch_names_only_discovered_courts _ _ Hr Hs)
    as (_ & _ & _ & Hnames & _).
  split; [exact Hr|]. split; [exact Hs | exact Hnames].
Defined.

(** *** A date changed after the discovery *)

(** X8: changing the discovery date after a discovery keeps the discovered
    courts and the selection as they are, and a fetch started afterwards is
    sent for the date now in the input, with the courts selected earlier:
    the page does not tie the courts to the date they were discovered
    for. *)
Theorem fetch_sends_the_date_in_the_input (w : World) (d : string) :
  operable DiscoveryDateInput (ui w) = true -> date_input_value d = true ->
  exists w',
    step w (Change DiscoveryDateInput d) = Some w'
    /\ discoveredCourts (ui w') = discoveredCourts (ui w)
    /\ selectedCourts (ui w') = selectedCourts (ui w)
    /\ Http.payload (fetch_court_data_request w')
       = Http.JsonBody
           (Js.Obj [ ("target_date", Js.Str d);
                     ("court_numbers",
                      Js.Arr (map Js.Str (selectedCourts (ui w)))) ]).
Proof.
  intros Hop Hd. unfold step. simpl. rewrite Hop, Hd. simpl.
  eexists. split; [reflexivity|].
  rewrite commit_same by reflexivity. repeat split.
Qed.

Lemma fetch_sends_the_date_in_the_input_witness :
  exists w',
    step Sample.chosen (Change DiscoveryDateInput "2025-02-01") = Some w'
    /\ discoveredCourts (ui w') = [Sample.court3; Sample.court17]
    /\ Http.payload (fetch_court_data_request w')
       = Http.JsonBody
           (Js.Obj [ ("target_date", Js.Str "2025-02-01");
                     ("court_numbers", Js.Arr [Js.Str "3"; Js.Str "17"]) ]).
Proof.
  destruct (fetch_sends_the_date_in_the_input
              Sample.chosen "2025-02-01" eq_refl eq_refl)
    as (w' & Hs & Hd & _ & Hp).
  exists w'. split; [exact Hs|]. split; [exact Hd | exact Hp].
Defined.

(** *** Checkboxes *)

Lemma includes_without (prev : list string) (c x : string) :
  includes (filter (fun y => negb (y =? c)) prev) x
  = negb (x =? c) && includes prev x.
Proof.
  induction prev as [|y prev IH]; simpl; [now rewrite andb_false_r|].
  destruct (String.eqb_spec y c) as [->|Hyc]; simpl.
  - rewrite IH. destruct (String.eqb_spec c x) as [->|Hcx]; simpl.
    + now rewrite String.eqb_refl.
    + reflexivity.
  - fold (includes (filter (fun y => negb (y =? c)) prev) x). rewrite IH.
    destruct (String.eqb_spec y x) as [->|Hyx]; simpl; [|reflexivity].
    apply String.eqb_neq in Hyc. now rewrite Hyc.
Qed.

Lemma includes_app (a b : list string) (x : string) :
  includes (a ++ b) x = includes a x || includes b x.
Proof. unfold includes. apply existsb_app. Qed.

(** X9: for any selection, duplicates included, toggling a court flips
    the checked state of that court's checkbox and leaves the checked state
    of every other court's checkbox unchanged. *)
Theorem court_checkbox_flips_only_itself (s : State) (c x : string) :
  court_checked x (toggleCourtSelection c s)
  = if x =? c then negb (court_checked c s) else court_checked x s.
Proof.
  unfold court_checked, toggleCourtSelection. simpl. unfold toggle.
  destruct (includes (selectedCourts s) c) eqn:Hc.
  - rewrite includes_without.
    destruct (String.eqb_spec x c) as [->|Hxc]; simpl; [|reflexivity].
    reflexivity.
  - rewrite includes_app. simpl. rewrite orb_false_r.
    destruct (String.eqb_spec x c) as [->|Hxc].
    + rewrite Hc, String.eqb_refl. reflexivity.
    + apply not_eq_sym, String.eqb_neq in Hxc. rewrite Hxc.
      apply orb_false_r.
Qed.

(** X10: whenever courts are discovered (the checkbox in the table head
    is rendered only then), changing that checkbox flips its own checked
    state: it deselects everything when it was checked and selects every
    discovered court, in discovery order, when it was not. *)
Theorem header_checkbox_flips (s : State) :
  discoveredCourts s <> [] ->
  all_checked (toggleAll s) = negb (all_checked s)
  /\ selectedCourts (toggleAll s)
     = if all_checked s then []
       else map Court.court_number (discoveredCourts s).
Proof.
  intros Hne. unfold toggleAll, all_checked.
  destruct (length (selectedCourts s) =? length (discoveredCourts s))%nat;
    simpl; split; try reflexivity.
  - destruct (discoveredCourts s); [contradiction | reflexivity].
  - rewrite length_map. apply Nat.eqb_refl.
Qed.

Lemma header_checkbox_flips_witness :
  all_checked (ui Sample.chosen) = true
  /\ all_checked (toggleAll (ui Sample.chosen)) = false
  /\ selectedCourts (toggleAll (ui Sample.chosen)) = [].
Proof.
  destruct (header_checkbox_flips (ui Sample.chosen) ltac:(discriminate))
    as [Hflip Hsel].
  split; [reflexivity|]. split; [exact Hflip | exact Hsel].
Defined.

(** *** The checkbox in the table head *)

Lemma toggle_NoDup (c : string) (prev : list string) :
  NoDup prev -> NoDup (toggle c prev).
Proof.
  intros Hnd. destruct (in_dec string_dec c prev) as [Hc|Hc].
  - rewrite toggle_selected by assumption. now apply NoDup_filter.
  - rewrite toggle_unselected by assumption.
    apply NoDup_app; [assumption | repeat constructor; simpl; tauto |].
    intros a Ha [<-|[]]. contradiction.
Qed.

Lemma distinct_inv_cells (s s' : State) :
  selection_cells s' = selection_cells s -> distinct_inv s -> distinct_inv s'.
Proof.
  unfold selection_cells, distinct_inv. intros [= _ E2 E3].
  now rewrite E2, E3.
Qed.

Lemma handle_distinct_inv (e : event) (w w' : World) :
  selection_inv (ui w) -> distinct_inv (ui w) -> handle e w = Some w' ->
  distinct_inv (ui w').
Proof.
  intros [_ Hpending] Hinv. destruct e; simpl.
  - destruct (operable c (ui w)); [|discriminate]. intros [= <-].
    destruct c; simpl;
      try (eapply distinct_inv_cells; [|exact Hinv]; reflexivity).
    + unfold discoverCourts. destruct (discoveryDate (ui w) =? "").
      * eapply distinct_inv_cells; [|exact Hinv]; reflexivity.
      * intros _. simpl. constructor.
    + intros H. exact H.
    + intros _. simpl. constructor.
    + unfold toggleAll. destruct (_ =? _)%nat.
      * intros _. simpl. constructor.
      * intros H. exact H.
    + intros H. simpl in *. apply toggle_NoDup. now apply Hinv.
    + eapply distinct_inv_cells; [|exact Hinv].
      apply fetchSelectedCourts_cells.
  - destruct (operable c (ui w) && date_input_value value); [|discriminate].
    destruct c; simpl; try discriminate; intros [= <-];
      (eapply distinct_inv_cells; [|exact Hinv]; reflexivity).
  - destruct (interval (browser w)); [|discriminate]. intros [= <-].
    eapply distinct_inv_cells; [|exact Hinv]; reflexivity.
  - destruct (0 <? polls (browser w))%nat; [|discriminate]. intros [= <-].
    eapply distinct_inv_cells; [|exact Hinv]. apply poll_settled_cells.
  - destruct (0 <? stops (browser w))%nat; [|discriminate]. intros [= <-].
    eapply distinct_inv_cells; [|exact Hinv]. destruct r; reflexivity.
  - destruct (0 <? loads (browser w))%nat; [|discriminate]. intros [= <-].
    eapply distinct_inv_cells; [|exact Hinv]. apply fetchData_settled_cells.
  - destruct (triggering (ui w)); [|discriminate]. intros [= <-].
    eapply distinct_inv_cells; [|exact Hinv].
    apply triggerScraper_settled_cells.
  - destruct (discovering (ui w)) eqn:Hd; [|discriminate]. intros [= <-].
    destruct (Hpending eq_refl) as [_ Hs].
    unfold distinct_inv, discoverCourts_settled, discoverCourts_catch.
    destruct r as [err|response]; simpl; [rewrite Hs; constructor|].
    destruct (Http.json response) as [err|data]; simpl;
      [rewrite Hs; constructor|].
    destruct (Http.ok response); simpl; [|rewrite Hs; constructor].
    destruct (CourtDiscoveryResponse.courts data); simpl;
      [rewrite Hs; constructor | tauto].
  - destruct (fetchingCourts (ui w)); [|discriminate]. intros [= <-].
    eapply distinct_inv_cells; [|exact Hinv].
    apply fetchSelectedCourts_settled_cells.
Qed.

Lemma reachable_distinct_inv (w : World) : reachable w -> distinct_inv (ui w).
Proof.
  intros [tok [trace Hrun]].
  assert (H : selection_inv (ui (mount tok)) /\ distinct_inv (ui (mount tok))).
  { split; [apply mount_selection_inv|].
    eapply distinct_inv_cells with (s := initial).
    - unfold mount. rewrite fetchData_cells. reflexivity.
    - intros _. constructor. }
  revert H Hrun. generalize (mount tok).
  induction trace as [|e trace IH]; simpl.
  - intros w0 [_ H] [= <-]. exact H.
  - intros w0 [Hs Hd]. destruct (step w0 e) as [w1|] eqn:Hstep; [|discriminate].
    apply IH. split; [eapply step_selection_inv; eassumption|].
    unfold step in Hstep.
    destruct (handle e w0) as [w2|] eqn:Hh; [|discriminate].
    injection Hstep as <-.
    eapply distinct_inv_cells; [apply commit_cells|].
    eapply handle_distinct_inv; eassumption.
Qed.

(** X11: in every session, when the discovered court numbers are distinct
    the selection holds no duplicate, and the checkbox in the table head is
    checked exactly when every discovered court is selected. *)
Theorem header_checked_means_all_selected (w : World) :
  reachable w ->
  NoDup (map Court.court_number (discoveredCourts (ui w))) ->
  NoDup (selectedCourts (ui w))
  /\ (all_checked (ui w) = true <->
      forall court, In court (discoveredCourts (ui w)) ->
                    court_checked (Court.court_number court) (ui w) = true).
Proof.
  intros Hr Hnd.
  pose proof (reachable_distinct_inv w Hr Hnd) as Hsel.
  destruct (reachable_selection_inv w Hr) as [Hincl _].
  unfold selection_within in Hincl.
  split; [exact Hsel|]. unfold all_checked, court_checked.
  rewrite Nat.eqb_eq. split.
  - intros Hlen court Hin. apply includes_In.
    assert (Hp : Permutation
                   (selectedCourts (ui w))
                   (map Court.court_number (discoveredCourts (ui w)))).
    { apply NoDup_Permutation_bis; [exact Hsel | | exact Hincl].
      rewrite length_map. lia. }
    apply Permutation_sym in Hp. apply (Permutation_in _ Hp).
    now apply in_map.
  - intros Hall.
    assert (Hback : incl (map Court.court_number (discoveredCourts (ui w)))
                         (selectedCourts (ui w))).
    { intros n Hn. apply in_map_iff in Hn as [court [<- Hin]].
      apply includes_In. now apply Hall. }
    pose proof (NoDup_incl_length Hnd Hback) as H1.
    pose proof (NoDup_incl_length Hsel Hincl) as H2.
    rewrite length_map in *. lia.
Qed.

Lemma header_checked_means_all_selected_witness :
  reachable Sample.chosen
  /\ NoDup (map Court.court_number (discoveredCourts (ui Sample.chosen)))
  /\ NoDup (selectedCourts (ui Sample.chosen))
  /\ court_checked "17" (ui Sample.chosen) = true.
Proof.
  assert (Hr : reachable Sample.chosen).
  { exists (Some "t"), Sample.chosen_trace. reflexivity. }
  assert (Hnd : NoDup (map Court.court_number
                           (discoveredCourts (ui Sample.chosen)))).
  { repeat constructor; simpl; intuition discriminate. }
  destruct (header_checked_means_all_selected _ Hr Hnd) as [Hsel Hiff].
  split; [exact Hr|]. split; [exact Hnd|]. split; [exact Hsel|].
  apply (proj1 Hiff eq_refl Sample.court17). simpl. tauto.
Defined.

(** *** The live panel *)

Lemma reachable_loading_inv (w : World) : reachable w -> loading_inv w.
Proof.
  intros [tok [trace Hrun]].
  pose proof (mount_loading_inv tok) as H. revert H Hrun.
  generalize (mount tok). induction trace as [|e trace IH]; simpl.
  - now intros w0 H [= <-].
  - intros w0 H. destruct (step w0 e) as [w1|] eqn:Hs; [|discriminate].
    apply IH. eapply step_loading_inv; eassumption.
Qed.

(** X12: in every session, while any run is active the progress endpoint
    is polled every 2000 ms, but the "Live Logs" panel is rendered only when
    the active run is a scraper run (triggering): it then shows the lines
    joined by newlines, or "Waiting for logs..." while there are none.
    During a discovery or a fetch alone the polled lines are never
    displayed. *)
Theorem progress_displayed_only_for_scraper_runs (w : World) :
  reachable w -> run_active (ui w) = true ->
  interval (browser w) = Some 2000%Z
  /\ live_panel (ui w)
     = if triggering (ui w)
       then Some (match liveLogs (ui w) with
                  | [] => "Waiting for logs..."
                  | _ => join newline (liveLogs (ui w))
                  end)
       else None.
Proof.
  intros Hr Ha. pose proof (reachable_polling_inv w Hr) as Hp.
  unfold polling_inv in Hp. rewrite Ha in Hp. split; [exact Hp|].
  pose proof (reachable_loading_inv w Hr) as Hl. unfold loading_inv in Hl.
  unfold live_panel. destruct (loading (ui w)).
  - destruct (Hl eq_refl) as (_ & H & _). congruence.
  - destruct (triggering (ui w)); [|reflexivity].
    destruct (liveLogs (ui w)); reflexivity.
Qed.

Lemma progress_displayed_only_for_scraper_runs_witness :
  reachable Sample.searching
  /\ run_active (ui Sample.searching) = true
  /\ interval (browser Sample.searching) = Some 2000%Z
  /\ live_panel (ui Sample.searching) = None.
Proof.
  assert (Hr : reachable Sample.searching).
  { exists (Some "t"), Sample.searching_trace. reflexivity. }
  destruct (progress_displayed_only_for_scraper_runs _ Hr eq_refl)
    as [Hi Hp].
  split; [exact Hr|]. split; [reflexivity|]. split; [exact Hi | exact Hp].
Defined.

(** *** What a settled load stores *)

(** X13: when both requests of [fetchData] are answered, loading is
    cleared in every case; a non-ok status answer leaves the status as it was
    and does not keep an ok logs answer from being stored; an ok status
    answer whose body cannot be read is reported as the error and keeps the
    logs from being stored; an ok status answer is stored even when the logs
    answer is not ok, which then changes neither logs nor error. *)
Theorem fetchData_settled_stores_what_is_ok
        (w : World) (statusRes : Http.response ScraperStatus.t)
        (logsRes : Http.response (list ScraperLog.t)) :
  let w' := fetchData_settled (Js.Resolved (statusRes, logsRes)) w in
  loading (ui w') = false
  /\ (Http.ok statusRes = false ->
        status (ui w') = status (ui w)
        /\ forall l, Http.ok logsRes = true ->
                     Http.json logsRes = Js.Resolved l -> logs (ui w') = l)
  /\ (forall err,
        Http.ok statusRes = true -> Http.json statusRes = Js.Rejected err ->
        status (ui w') = status (ui w) /\ logs (ui w') = logs (ui w)
        /\ error (ui w')
           = Js.Str (Js.or_str (Js.message err) "Failed to load data"))
  /\ (forall d,
        Http.ok statusRes = true -> Http.json statusRes = Js.Resolved d ->
        status (ui w') = Some d
        /\ (Http.ok logsRes = false ->
            logs (ui w') = logs (ui w) /\ error (ui w') = error (ui w))).
Proof.
  intros w'. subst w'. unfold fetchData_settled, fetchData_catch.
  split; [|split; [|split]].
  - destruct (Http.ok statusRes), (Http.json statusRes), (Http.ok logsRes),
      (Http.json logsRes); reflexivity.
  - intros ->. split.
    + destruct (Http.ok logsRes), (Http.json logsRes); reflexivity.
    + intros l -> ->. reflexivity.
  - intros err -> ->. repeat split.
  - intros d -> ->. split.
    + destruct (Http.ok logsRes), (Http.json logsRes); reflexivity.
    + intros ->. split; reflexivity.
Qed.

End AdminPageFacts.

(** ** The login page *)

Section LoginPageFacts.
Import LoginPage.

Lemma handleLogin_catch_frame (err : Js.error) (w : World) :
  browser (handleLogin_catch err w) = browser w.
Proof. unfold handleLogin_catch. destruct (_ =? _); reflexivity. Qed.

Lemma handleLogin_finally_spec (w : World) :
  loading (ui (handleLogin_finally w)) = false
  /\ error (ui (handleLogin_finally w)) = error (ui w)
  /\ timer (browser (handleLogin_finally w)) = None
  /\ storage (browser (handleLogin_finally w)) = storage (browser w)
  /\ pushed (browser (handleLogin_finally w)) = pushed (browser w)
  /\ sent (browser (handleLogin_finally w)) = sent (browser w).
Proof.
  unfold handleLogin_finally. destruct (timer (browser w)) eqn:E; simpl; rewrite ?E; tauto.
Qed.

(** C10: the login flow stores an access token and navigates to the
    search page only when the auth endpoint answers ok; a non-ok answer
    yields the error 'Invalid credentials' with no token stored; a request
    that takes longer than 10000 ms is aborted and reported with a timeout
    message distinct from the credentials error; and in every outcome the
    loading flag is cleared and the timeout timer is cancelled. *)
Theorem handleLogin_outcomes (w : World) (r : reply) :
  let w' := handleLogin r w in
  (loading (ui w') = false /\ timer (browser w') = None)
  /\ ((storage (browser w') <> storage (browser w)
       \/ pushed (browser w') <> pushed (browser w)) ->
      (latency r <= 10000)%Z
      /\ exists response, settles r = Js.Resolved response
                          /\ Http.ok response = true)
  /\ (forall response data access_token,
        (latency r <= 10000)%Z -> settles r = Js.Resolved response ->
        Http.ok response = true -> Http.json response = Js.Resolved data ->
        Js.get data "access_token" = Js.Resolved access_token ->
        storage (browser w')
        = ("token", Js.to_string access_token) :: storage (browser w)
        /\ pushed (browser w') = "/search" :: pushed (browser w))
  /\ (forall response,
        (latency r <= 10000)%Z -> settles r = Js.Resolved response ->
        Http.ok response = false ->
        error (ui w') = "Invalid credentials"
        /\ storage (browser w') = storage (browser w)
        /\ pushed (browser w') = pushed (browser w))
  /\ ((10000 < latency r)%Z ->
        error (ui w') = timeout_message
        /\ timeout_message <> "Invalid credentials"
        /\ storage (browser w') = storage (browser w)
        /\ pushed (browser w') = pushed (browser w)).
Proof.
  intros w'. subst w'. unfold handleLogin, handleLogin_settled.
  set (w1 := handleLogin_submit w).
  assert (Hst : storage (browser w1) = storage (browser w)) by reflexivity.
  assert (Hpu : pushed (browser w1) = pushed (browser w)) by reflexivity.
  assert (Haw : awaited w1 r
                = if (abort_delay <? latency r)%Z then Js.Rejected abort_error
                  else settles r) by reflexivity.
  rewrite Haw. clear Haw.
  match goal with |- context [handleLogin_finally ?x] =>
    pose proof (handleLogin_finally_spec x) as (Hl & He & Ht & Hs & Hp & _)
  end.
  split; [split; assumption|].
  rewrite Hs, Hp, He. clear Hl He Ht Hs Hp.
  destruct (abort_delay <? latency r)%Z eqn:Hlat.
  - apply Z.ltb_lt in Hlat. unfold abort_delay in Hlat. simpl.
    split; [intros [H|H]; congruence|].
    split; [intros; lia|]. split; [intros; lia|].
    intros _. repeat split; try assumption. discriminate.
  - apply Z.ltb_ge in Hlat. unfold abort_delay in Hlat.
    split; [|split; [|split; [|intros; lia]]].
    + intros Hchg. split; [exact Hlat|].
      destruct (settles r) as [err|response].
      { rewrite handleLogin_catch_frame in Hchg. destruct Hchg; congruence. }
      exists response. split; [reflexivity|].
      destruct (Http.ok response); [reflexivity|]. simpl in Hchg.
      destruct Hchg; congruence.
    + intros response data tok _ -> Hok Hjson Hget.
      rewrite Hok, Hjson, Hget. simpl. split; reflexivity.
    + intros response _ -> Hok. rewrite Hok. simpl. tauto.
Qed.

Lemma handleLogin_outcomes_witness :
  storage (browser (handleLogin (Reply 120 (Js.Resolved Sample.granted))
                                Sample.form))
  = [("token", "abc")]
  /\ error (ui (handleLogin (Reply 10001 (Js.Resolved Sample.granted))
                            Sample.form))
     = timeout_message
  /\ loading (ui (handleLogin (Reply 10001 (Js.Resolved Sample.granted))
                              Sample.form))
     = false.
Proof.
  pose proof (handleLogin_outcomes
                Sample.form (Reply 120 (Js.Resolved Sample.granted)))
    as (_ & _ & Hok & _).
  pose proof (handleLogin_outcomes
                Sample.form (Reply 10001 (Js.Resolved Sample.granted)))
    as ((Hload & _) & _ & _ & _ & Hlate).
  split.
  - refine (proj1 (Hok Sample.granted _ (Js.Str "abc") _ eq_refl eq_refl
                       eq_refl eq_refl)).
    simpl. lia.
  - split; [|exact Hload]. refine (proj1 (Hlate _)). simpl. lia.
Defined.

(** *** Further properties of the login page *)

Lemma or_str_not_empty (s fallback : string) :
  fallback <> "" -> Js.or_str s fallback <> "".
Proof.
  intros H. unfold Js.or_str. destruct (String.eqb_spec s ""); assumption.
Qed.

Lemma handleLogin_catch_error (err : Js.error) (w : World) :
  error (ui (handleLogin_catch err w)) <> "".
Proof.
  unfold handleLogin_catch. destruct (_ =? _); simpl.
  - discriminate.
  - apply or_str_not_empty. discriminate.
Qed.

(** X14: every login attempt ends in exactly one of two ways: nothing is
    stored, nothing is navigated to and a non-empty error is shown; or one
    token is stored, the search page is navigated to and no error is
    shown. *)
Theorem login_shows_error_iff_nothing_stored (w : World) (r : reply) :
  let w' := handleLogin r w in
  (storage (browser w') = storage (browser w)
   /\ pushed (browser w') = pushed (browser w)
   /\ error (ui w') <> "")
  \/ (exists t, storage (browser w') = ("token", t) :: storage (browser w)
                /\ pushed (browser w') = "/search" :: pushed (browser w)
                /\ error (ui w') = "").
Proof.
  intros w'. subst w'. unfold handleLogin, handleLogin_settled.
  set (w1 := handleLogin_submit w).
  assert (Hst : storage (browser w1) = storage (browser w)) by reflexivity.
  assert (Hpu : pushed (browser w1) = pushed (browser w)) by reflexivity.
  assert (Her : error (ui w1) = "") by reflexivity.
  match goal with |- context [handleLogin_finally ?x] =>
    pose proof (handleLogin_finally_spec x) as (_ & He & _ & Hs & Hp & _)
  end.
  rewrite Hs, Hp, He. clear Hs Hp He.
  assert (Hcatch : forall err,
             storage (browser (handleLogin_catch err w1)) = storage (browser w)
             /\ pushed (browser (handleLogin_catch err w1)) = pushed (browser w)
             /\ error (ui (handleLogin_catch err w1)) <> "").
  { intros err. rewrite handleLogin_catch_frame.
    repeat split; try assumption. apply handleLogin_catch_error. }
  destruct (awaited w1 r) as [err|response]; [left; apply Hcatch|].
  destruct (Http.ok response); cbv beta iota delta [negb];
    [|left; apply Hcatch].
  destruct (Http.json response) as [err|data]; [left; apply Hcatch|].
  destruct (Js.get data "access_token") as [err|v]; [left; apply Hcatch|].
  right. exists (Js.to_string v). repeat split.
Qed.

Lemma step_form_inv (e : event) (w w' : World) :
  form_inv w -> step w e = Some w' -> form_inv w'.
Proof.
  intros (Ht & Herr & Hp & Hs). destruct e; simpl.
  - intros [= <-]. repeat split; assumption.
  - intros [= <-]. repeat split; assumption.
  - destruct (can_submit (ui w)) eqn:Hc; [|discriminate]. intros [= <-].
    unfold can_submit in Hc. apply andb_prop in Hc as [Hc Hpw].
    apply andb_prop in Hc as [_ Hun].
    apply negb_true_iff, String.eqb_neq in Hun, Hpw.
    repeat split; try assumption. simpl. intros r Hr.
    apply in_app_or in Hr. destruct Hr as [Hr|[<-|[]]]; [now apply Hs|].
    exists (username (ui w)), (password (ui w)). repeat split; assumption.
  - destruct (loading (ui w)) eqn:Hl; [|discriminate]. intros [= <-].
    unfold handleLogin_settled.
    match goal with |- form_inv (handleLogin_finally ?x) =>
      pose proof (handleLogin_finally_spec x) as (Hl' & _ & Ht' & _ & Hp' & Hs');
      assert (Hx : (forall route, In route (pushed (browser x)) ->
                                  route = "/search")
                   /\ sent (browser x) = sent (browser w))
    end.
    { destruct (awaited w r) as [err|response];
        [rewrite handleLogin_catch_frame; tauto|].
      destruct (Http.ok response); cbv beta iota delta [negb];
        [|rewrite handleLogin_catch_frame; tauto].
      destruct (Http.json response) as [err|data];
        [rewrite handleLogin_catch_frame; tauto|].
      destruct (Js.get data "access_token") as [err|v];
        [rewrite handleLogin_catch_frame; tauto|].
      simpl. split; [|reflexivity]. intros route [<-|Hr]; auto. }
    destruct Hx as [Hx1 Hx2]. unfold form_inv.
    rewrite Hl', Ht', Hp', Hs', Hx2. repeat split; try assumption.
    discriminate.
Qed.

Lemma reachable_form_inv (w : World) : reachable w -> form_inv w.
Proof.
  intros [stored [trace Hrun]].
  assert (H : form_inv (mount stored)).
  { repeat split; try discriminate; intros ? []. }
  revert H Hrun. generalize (mount stored).
  induction trace as [|e trace IH]; simpl.
  - now intros w0 H [= <-].
  - intros w0 H. destruct (step w0 e) as [w1|] eqn:Hs; [|discriminate].
    apply IH. eapply step_form_inv; eassumption.
Qed.

(** X15: in every session of the login form the abort timer is pending,
    with its delay of 10000 ms, exactly while loading is set; while loading
    is set no error is shown and the form cannot be submitted again; the
    page navigates nowhere but to the search page; and every request sent is
    a POST of username, password and an empty scope to the token endpoint,
    with neither credential empty. *)
Theorem one_login_at_a_time (w : World) :
  reachable w ->
  timer (browser w) = (if loading (ui w) then Some 10000%Z else None)
  /\ (loading (ui w) = true -> error (ui w) = "" /\ step w Submit = None)
  /\ (forall route, In route (pushed (browser w)) -> route = "/search")
  /\ (forall r, In r (sent (browser w)) -> credentials_request r).
Proof.
  intros Hr. destruct (reachable_form_inv w Hr) as (Ht & Herr & Hp & Hs).
  repeat split; try assumption.
  - now apply Herr.
  - simpl. unfold can_submit. now rewrite H.
Qed.

Lemma one_login_at_a_time_witness :
  reachable Sample.submitted
  /\ loading (ui Sample.submitted) = true
  /\ timer (browser Sample.submitted) = Some 10000%Z
  /\ step Sample.submitted Submit = None.
Proof.
  assert (Hr : reachable Sample.submitted).
  { exists [], Sample.submitted_trace. reflexivity. }
  destruct (one_login_at_a_time _ Hr) as (Ht & Hl & _).
  split; [exact Hr|]. split; [reflexivity|]. split; [exact Ht|].
  exact (proj2 (Hl eq_refl)).
Defined.

(** X16: after an ok login answer within the time limit, the text of
    access_token is what the admin page reads back as its token: when the
    text is not empty the admin page starts loading and sends its status and
    logs requests with "Bearer" followed by that text; when it is empty the
    admin page sends nothing and asks to log in.  A document without
    access_token stores the text "undefined", which the admin page then
    uses like any token. *)
Theorem login_token_reaches_admin
        (w : World) (r : reply) (response : Http.response Js.value)
        (data access_token : Js.value) :
  (latency r <= 10000)%Z -> settles r = Js.Resolved response ->
  Http.ok response = true -> Http.json response = Js.Resolved data ->
  Js.get data "access_token" = Js.Resolved access_token ->
  let t := Js.to_string access_token in
  let admin := AdminPage.mount (getItem "token" (handleLogin r w)) in
  getItem "token" (handleLogin r w) = Some t
  /\ (t <> "" ->
        AdminPage.loading (AdminPage.ui admin) = true
        /\ AdminPage.sent (AdminPage.browser admin)
           = [ Http.Request Http.GET "/api/proxy/api/scraper/status"
                            [("Authorization", "Bearer " ++ t)] Http.NoBody;
               Http.Request Http.GET "/api/proxy/api/scraper/logs"
                            [("Authorization", "Bearer " ++ t)] Http.NoBody ])
  /\ (t = "" ->
        AdminPage.loading (AdminPage.ui admin) = false
        /\ AdminPage.error (AdminPage.ui admin) = Js.Str "Please login first"
        /\ AdminPage.sent (AdminPage.browser admin) = [])
  /\ (access_token = Js.Undefined -> t = "undefined").
Proof.
  intros Hlat Hset Hok Hjson Hget t admin.
  assert (Htok : getItem "token" (handleLogin r w) = Some t).
  { unfold handleLogin, handleLogin_settled.
    assert (Haw : awaited (handleLogin_submit w) r = settles r).
    { unfold awaited. simpl. apply Z.leb_le in Hlat.
      unfold abort_delay. rewrite Z.ltb_antisym, Hlat. reflexivity. }
    rewrite Haw, Hset, Hok, Hjson, Hget. reflexivity. }
  subst admin. rewrite Htok. split; [reflexivity|]. split; [|split].
  - intros Hne. apply String.eqb_neq in Hne.
    unfold AdminPage.mount, AdminPage.fetchData, AdminPage.no_token. simpl.
    rewrite Hne. split; reflexivity.
  - intros He. unfold AdminPage.mount, AdminPage.fetchData, AdminPage.no_token.
    simpl. rewrite He. repeat split.
  - intros ->. reflexivity.
Qed.

Lemma login_token_reaches_admin_witness :
  getItem "token" (handleLogin (Reply 120 (Js.Resolved Sample.granted))
                               Sample.form)
  = Some "abc"
  /\ map Http.headers
         (AdminPage.sent
            (AdminPage.browser
               (AdminPage.mount
                  (getItem "token"
                           (handleLogin (Reply 120 (Js.Resolved Sample.granted))
                                        Sample.form)))))
     = [[("Authorization", "Bearer abc")]; [("Authorization", "Bearer abc")]].
Proof.
  assert (Hlat : (latency (Reply 120 (Js.Resolved Sample.granted))
                  <= 10000)%Z) by (simpl; lia).
  destruct (login_token_reaches_admin
              Sample.form (Reply 120 (Js.Resolved Sample.granted))
              Sample.granted
              (Js.Obj [("access_token", Js.Str "abc")]) (Js.Str "abc")
              Hlat eq_refl eq_refl eq_refl eq_refl)
    as (Htok & Hsend & _).
  split; [exact Htok|].
  destruct (Hsend ltac:(discriminate)) as [_ Hsent].
  rewrite Hsent. reflexivity.
Defined.

End LoginPageFacts.
